(** * FritzBoxGuestWifiControl: the guest WiFi controller of main.py

    A shallow embedding of [main.py]: the class [FritzBoxGuestWiFiControl],
    the module-level start-up code and the four FastAPI handlers, followed
    by the properties of the controller.

    The program talks to three things it does not own: the router (through
    the [fritzconnection] library), the clock ([time.sleep]) and the process
    environment ([os.environ], [load_dotenv]).  They are gathered in the
    class [Runtime]; the program itself is written in a state-and-exception
    monad over a [world] that records every call made to them. *)

From stdpp Require Import gmap strings list fin_maps.
From Stdlib Require Import ZArith.

Local Open Scope Z_scope.
Local Open Scope string_scope.
Local Open Scope list_scope.

(** ** Python values *)

(** The scalar values that travel between the program and the router:
    [call_action] takes and returns a flat dict of argument names to
    scalars, and [os.getenv] returns a string or [None]. *)
Inductive atom : Type :=
  | ANone
  | ABool (b : bool)
  | AInt (z : Z)
  | AStr (s : string).

(** The values the controller returns: scalars and (nested) dicts with
    string keys.  Python compares dicts regardless of insertion order, as
    [gmap] does. *)
#[warnings="-register-all"]
Inductive pyval : Type :=
  | Atom (a : atom)
  | Dict (d : gmap string pyval).

(** [bool(v)], the truth value used by [if v:] and [assert v]. *)
Definition truthy (v : atom) : bool :=
  match v with
  | ANone => false
  | ABool b => b
  | AInt z => negb (Z.eqb z 0)
  | AStr s => negb (String.eqb s "")
  end.

(** [a == b] on scalars; [bool] is a subclass of [int], so [True == 1]. *)
Definition atom_eq (a b : atom) : bool :=
  match a, b with
  | ANone, ANone => true
  | ABool x, ABool y => Bool.eqb x y
  | ABool x, AInt y => Z.eqb (if x then 1 else 0) y
  | AInt x, ABool y => Z.eqb x (if y then 1 else 0)
  | AInt x, AInt y => Z.eqb x y
  | AStr x, AStr y => String.eqb x y
  | _, _ => false
  end.

(** [v == a] for a scalar [a]: a dict never equals a scalar. *)
Definition py_eq_atom (v : pyval) (a : atom) : bool :=
  match v with
  | Atom x => atom_eq x a
  | Dict _ => false
  end.

(** [d.get(key)] on a flat dict: [None] when the key is missing. *)
Definition dict_get (d : gmap string atom) (key : string) : atom :=
  default ANone (d !! key).

(** [d.get(key)] on a dict of values. *)
Definition py_get (d : gmap string pyval) (key : string) : pyval :=
  default (Atom ANone) (d !! key).

(** A flat dict seen as a value. *)
Definition of_flat (d : gmap string atom) : pyval := Dict (Atom <$> d).

(** The value found by following [path] through nested dicts. *)
Fixpoint py_path (v : pyval) (path : list string) : option pyval :=
  match path with
  | [] => Some v
  | k :: rest =>
      match v with
      | Dict d => match d !! k with Some x => py_path x rest | None => None end
      | Atom _ => None
      end
  end.

(** An error marker is a dict with an ["error"] entry; [error_of v] is the
    entry. *)
Definition error_of (v : pyval) : option pyval :=
  match v with
  | Dict d => d !! "error"
  | Atom _ => None
  end.

Definition is_error_marker (v : pyval) : bool := bool_decide (is_Some (error_of v)).

(** ** Exceptions *)

Inductive exn : Type :=
  | FritzConnectionException (msg : string)
      (* fritzconnection.core.exceptions.FritzConnectionException and its
         subclasses; [msg] is [str(ex)] *)
  | AttributeError (attr : string)
  | AssertionError
  | OtherException (msg : string).
      (* any exception outside the FritzConnectionException hierarchy *)

Inductive result (A : Type) : Type :=
  | Ok (a : A)
  | Raise (e : exn).
Arguments Ok {A} a.
Arguments Raise {A} e.

(** ** The outside world *)

(** A [fritzconnection.FritzConnection] object, as far as the program reads
    it. *)
Record FritzConnection : Type := {
  system_version : atom;
  modelname : atom
}.

(** What the program does to the outside, in order. *)
Inductive event : Type :=
  | EvOpen (address user password : atom)
      (* fritzconnection.FritzConnection(address=.., user=.., password=..) *)
  | EvCall (service action : string) (arguments : gmap string atom)
      (* connection.call_action(service, action, arguments=..) *)
  | EvSleep (secs : Z).
      (* time.sleep(secs) *)

Inductive loglevel : Type := DEBUG | INFO | EXCEPTION.

(** A call of [logging.debug], [logging.info] or [logging.exception]: the
    format string and its arguments, unformatted. *)
Record logrecord : Type := Log {
  log_level : loglevel;
  log_msg : string;
  log_args : list atom
}.

(** The libraries and devices the program relies on, over a state [R] of
    everything outside the process (router, network, files). *)
Class Runtime (R : Type) : Type := {
  (* FritzConnection(address=, user=, password=) *)
  fc_open : atom -> atom -> atom -> R -> result FritzConnection * R;
  (* FritzConnection.call_action(service, action, arguments=) *)
  fc_call_action :
    FritzConnection -> string -> string -> gmap string atom -> R ->
    result (gmap string atom) * R;
  (* the passing of [secs] seconds *)
  time_sleep : Z -> R -> R;
  (* dotenv.load_dotenv(), as a change of os.environ *)
  load_dotenv : gmap string string -> gmap string string
}.

Record world (R : Type) : Type := World {
  router : R;
  environ : gmap string string;   (* os.environ *)
  trace : list event;
  log : list logrecord
}.
Arguments World {R} _ _ _ _.
Arguments router {R} _.
Arguments environ {R} _.
Arguments trace {R} _.
Arguments log {R} _.

(** The value of [os.environ.get(key)]: a string, or [None]. *)
Definition env_value (env : gmap string string) (key : string) : atom :=
  match env !! key with
  | Some v => AStr v
  | None => ANone
  end.

(** ** The monad of Python statements *)

Definition M (R A : Type) : Type := world R -> result A * world R.

Definition ret {R A} (a : A) : M R A := fun w => (Ok a, w).

Definition bind {R A B} (m : M R A) (k : A -> M R B) : M R B :=
  fun w =>
    match m w with
    | (Ok a, w') => k a w'
    | (Raise e, w') => (Raise e, w')
    end.

Definition raise {R A} (e : exn) : M R A := fun w => (Raise e, w).

(** [try: body / except <class> as ex: handler]: [handler ex] is [None] for
    an exception the clause does not match, which then propagates. *)
Definition try_except {R A} (body : M R A) (handler : exn -> option (M R A)) : M R A :=
  fun w =>
    match body w with
    | (Ok a, w') => (Ok a, w')
    | (Raise e, w') =>
        match handler e with
        | Some h => h w'
        | None => (Raise e, w')
        end
    end.

Declare Scope py_scope.
Delimit Scope py_scope with py.
Notation "x <- c1 ;; c2" := (bind c1 (fun x => c2))
  (at level 100, c1 at next level, right associativity) : py_scope.
Notation "c1 ;;; c2" := (bind c1 (fun _ => c2))
  (at level 100, right associativity) : py_scope.
Local Open Scope py_scope.

Section Program.

Context {R : Type} `{Runtime R}.

(** *** Library calls as statements *)

Definition logging (lvl : loglevel) (msg : string) (args : list atom) : M R unit :=
  fun w => (Ok tt, World (router w) (environ w) (trace w) (log w ++ [Log lvl msg args])).

Definition call_action (fb : FritzConnection) (service action_name : string)
    (arguments : gmap string atom) : M R (gmap string atom) :=
  fun w =>
    let '(out, r) := fc_call_action fb service action_name arguments (router w) in
    (out, World r (environ w) (trace w ++ [EvCall service action_name arguments]) (log w)).

Definition sleep (secs : Z) : M R unit :=
  fun w =>
    (Ok tt, World (time_sleep secs (router w)) (environ w) (trace w ++ [EvSleep secs]) (log w)).

Definition open_connection (address user password : atom) : M R FritzConnection :=
  fun w =>
    let '(out, r) := fc_open address user password (router w) in
    (out, World r (environ w) (trace w ++ [EvOpen address user password]) (log w)).

(** [os.getenv(key)] and [os.getenv(key, default)]. *)
Definition getenv (key : string) : M R atom :=
  fun w => (Ok (env_value (environ w) key), w).

Definition getenv_default (key dflt : string) : M R atom :=
  fun w => (Ok (AStr (default dflt (environ w !! key))), w).

(** The [assert v] statement (assertions enabled, the interpreter's
    default). *)
Definition py_assert (v : atom) : M R unit :=
  if truthy v then ret tt else raise AssertionError.

(** *** class FritzBoxGuestWiFiControl *)

Definition FRITZBOX_GUESTWIFI_ENABLED : string := "Up".

(** The instance: its one attribute, [None] once [del self.fritzbox] has
    run. *)
Record FritzBoxGuestWiFiControl : Type := {
  fritzbox : option FritzConnection
}.

(** [FritzBoxGuestWiFiControl(connection)]. *)
Definition __init__ (connection : FritzConnection) : FritzBoxGuestWiFiControl :=
  {| fritzbox := Some connection |}.

(** The attribute read [self.fritzbox]. *)
Definition self_fritzbox (self : FritzBoxGuestWiFiControl) : M R FritzConnection :=
  match fritzbox self with
  | Some fb => ret fb
  | None => raise (AttributeError "fritzbox")
  end.

Definition __guestwifi_action (self : FritzBoxGuestWiFiControl) (action_name : string)
    (arguments : option (gmap string atom)) : M R (gmap string atom) :=
  let arguments := default ∅ arguments in
  try_except
    (fb <- self_fritzbox self ;;
     call_action fb "WLANConfiguration3" action_name arguments)
    (fun ex =>
       match ex with
       | FritzConnectionException msg =>
           Some (logging EXCEPTION msg [] ;;;
                 ret {[ "error" := AStr msg ]})
       | _ => None
       end).

Definition __get_guestwifi_status (self : FritzBoxGuestWiFiControl) : M R atom :=
  d <- __guestwifi_action self "GetInfo" None ;;
  ret (dict_get d "NewStatus").

Definition get_info (self : FritzBoxGuestWiFiControl) : M R pyval :=
  fb1 <- self_fritzbox self ;;
  let version := system_version fb1 in
  fb2 <- self_fritzbox self ;;
  let model := modelname fb2 in
  enabled <- __get_guestwifi_status self ;;
  ssid_d <- __guestwifi_action self "GetSSID" None ;;
  let ssid := dict_get ssid_d "NewSSID" in
  stats <- __guestwifi_action self "GetStatistics" None ;;
  ret (Dict {[
    "fritzbox" := Dict (
      <[ "version" := Atom version ]> (
      <[ "model" := Atom model ]> (
      {[ "guestwifi" := Dict (
          <[ "enabled" := Atom enabled ]> (
          <[ "ssid" := Atom ssid ]> (
          {[ "stats" := of_flat stats ]}))) ]})))
  ]}).

Definition get_guestwifi_status (self : FritzBoxGuestWiFiControl) : M R (gmap string pyval) :=
  status <- __get_guestwifi_status self ;;
  ret {[ "enabled" := Atom status ]}.

(** Lines 81-85 of [set_guestwifi_status], reached when neither early
    [return] was taken. *)
Definition set_new_status (self : FritzBoxGuestWiFiControl) (enable : atom)
    : M R (gmap string pyval) :=
  __guestwifi_action self "SetEnable" (Some {[ "NewEnable" := enable ]}) ;;;
  logging INFO "wait 5 seconds for status change..." [] ;;;
  sleep 5 ;;;
  get_guestwifi_status self.

Definition set_guestwifi_status (self : FritzBoxGuestWiFiControl) (enable : atom)
    : M R (gmap string pyval) :=
  status <- __get_guestwifi_status self ;;
  logging DEBUG "response: %s" [status] ;;;
  if truthy enable then
    if atom_eq status (AStr FRITZBOX_GUESTWIFI_ENABLED) then
      logging INFO "already up - nothing to do" [] ;;;
      ret {[ "enabled" := Atom status ]}
    else set_new_status self enable
  else
    if negb (atom_eq status (AStr FRITZBOX_GUESTWIFI_ENABLED)) then
      logging INFO "already disabled - nothing to do" [] ;;;
      ret {[ "enabled" := Atom status ]}
    else set_new_status self enable.

(** [close]: [del self.fritzbox]; the instance afterwards is returned. *)
Definition close (self : FritzBoxGuestWiFiControl) : M R FritzBoxGuestWiFiControl :=
  match fritzbox self with
  | Some _ => ret {| fritzbox := None |}
  | None => raise (AttributeError "fritzbox")
  end.

(** *** Module level *)

Definition __version__ : string := "1.3.3".
Definition __updated__ : string := "2022-10-16".

(** [load_dotenv()] as a statement. *)
Definition do_load_dotenv : M R unit :=
  fun w => (Ok tt, World (router w) (load_dotenv (environ w)) (trace w) (log w)).

Definition setup_fritzbox_connection : M R FritzBoxGuestWiFiControl :=
  address <- getenv "FRITZBOX_ADDRESS" ;;
  user <- getenv "FRITZBOX_USER" ;;
  password <- getenv "FRITZBOX_PASS" ;;
  connection <- open_connection address user password ;;
  ret (__init__ connection).

(** The start-up checks the module runs when it is imported, lines 32-35
    and 117-132 (the interpreter is Python 3, so the version check of line
    27 passes).  The import goes on after them with lines 136-138, which
    create the FastAPI application, mount the directory of static files and
    set up the templates; those lines belong to the web framework and are
    not part of this definition, so a normal return here says that the
    checks passed, not that the whole import did. *)
Definition module_startup : M R unit :=
  do_load_dotenv ;;;
  (v <- getenv "FRITZBOX_ADDRESS" ;; py_assert v) ;;;
  (v <- getenv "FRITZBOX_USER" ;; py_assert v) ;;;
  (v <- getenv "FRITZBOX_PASS" ;; py_assert v) ;;;
  (a <- getenv "FRITZBOX_ADDRESS" ;;
   u <- getenv "FRITZBOX_USER" ;;
   logging INFO "Checking FritzBox connection (%s with user %s) ..." [a; u]) ;;;
  address <- getenv "FRITZBOX_ADDRESS" ;;
  user <- getenv "FRITZBOX_USER" ;;
  password <- getenv "FRITZBOX_PASS" ;;
  fritz_connection <- open_connection address user password ;;
  logging INFO "FritzBox version: %s" [system_version fritz_connection] ;;;
  py_assert (system_version fritz_connection).

(** *** The FastAPI handlers *)

Inductive response : Type :=
  | TemplateResponse (name : string) (context : gmap string pyval)
  | JSONResponse (content : pyval)
  | RedirectResponse (url : atom)
  | InternalServerError (e : exn).
      (* what the framework answers when a handler raises *)

(** A request for one of the four routes of the module; the page handler
    is given the framework's request object. *)
Inductive request : Type :=
  | GetRoot (request : pyval)
  | GetGuestwifi
  | GetGuestwifiEnable
  | GetGuestwifiDisable.

Definition root (request : pyval) : M R response :=
  fritzbox <- setup_fritzbox_connection ;;
  status <- get_guestwifi_status fritzbox ;;
  close fritzbox ;;;
  header_message <- getenv_default "HEADER_MESSAGE" "" ;;
  let context : gmap string pyval :=
    <[ "request" := request ]> (
    <[ "guestwifi_enabled" :=
         Atom (ABool (py_eq_atom (py_get status "enabled")
                                 (AStr FRITZBOX_GUESTWIFI_ENABLED))) ]> (
    <[ "header_message" := Atom header_message ]> (
    <[ "version" := Atom (AStr __version__) ]> (
    {[ "updated" := Atom (AStr __updated__) ]})))) in
  ret (TemplateResponse "index.html" context).

Definition guestwifi : M R response :=
  fritzbox <- setup_fritzbox_connection ;;
  res <- get_info fritzbox ;;
  close fritzbox ;;;
  ret (JSONResponse res).

Definition guestwifi_enable : M R response :=
  fritzbox <- setup_fritzbox_connection ;;
  set_guestwifi_status fritzbox (AInt 1) ;;;
  close fritzbox ;;;
  url <- getenv_default "BASE_URL" "/" ;;
  ret (RedirectResponse url).

Definition guestwifi_disable : M R response :=
  fritzbox <- setup_fritzbox_connection ;;
  set_guestwifi_status fritzbox (AInt 0) ;;;
  close fritzbox ;;;
  url <- getenv_default "BASE_URL" "/" ;;
  ret (RedirectResponse url).

(** One request: the route's handler; an exception that leaves the handler
    becomes an error response and the server goes on. *)
Definition serve_request (q : request) : M R response :=
  try_except
    match q with
    | GetRoot request => root request
    | GetGuestwifi => guestwifi
    | GetGuestwifiEnable => guestwifi_enable
    | GetGuestwifiDisable => guestwifi_disable
    end
    (fun e => Some (ret (InternalServerError e))).

Fixpoint serve (qs : list request) : M R (list response) :=
  match qs with
  | [] => ret []
  | q :: rest =>
      r <- serve_request q ;;
      rs <- serve rest ;;
      ret (r :: rs)
  end.

(** The process: the module is imported, then the requests are served one
    after the other.  An exception at import ends the process. *)
Definition process (qs : list request) : M R (list response) :=
  module_startup ;;;
  serve qs.

End Program.

(** ** A simulated router

    A small router to run the program against: the guest radio follows the
    last [SetEnable] once more than three seconds have passed, and one
    action may be out of order. *)
Module Sim.

Record state : Type := {
  up : bool;                 (* the guest radio is on *)
  target : bool;             (* the last value written with SetEnable *)
  broken : option string     (* an action that fails with a UPnP error *)
}.

Definition box : FritzConnection :=
  {| system_version := AStr "7.29"; modelname := AStr "FRITZ!Box 7590" |}.

(** The answers of the simulated router. *)
Definition info (is_up enabled : bool) : gmap string atom :=
  {[ "NewStatus" := AStr (if is_up then "Up" else "Disabled");
     "NewEnable" := ABool enabled ]}.
Definition ssid : gmap string atom := {[ "NewSSID" := AStr "FRITZ!Box Gastzugang" ]}.
Definition upnp_error (action : string) : exn :=
  FritzConnectionException (String.append "UPnPError: " action).
Definition statistics : gmap string atom :=
  {[ "NewTotalPacketsSent" := AInt 10; "NewTotalPacketsReceived" := AInt 20 ]}.

Definition sim_action (action : string) (arguments : gmap string atom) (st : state)
    : result (gmap string atom) * state :=
  if bool_decide (broken st = Some action) then
    (Raise (upnp_error action), st)
  else if String.eqb action "GetInfo" then
    (Ok (info (up st) (target st)), st)
  else if String.eqb action "GetSSID" then
    (Ok ssid, st)
  else if String.eqb action "GetStatistics" then
    (Ok statistics, st)
  else if String.eqb action "SetEnable" then
    (Ok ∅, {| up := up st; target := truthy (dict_get arguments "NewEnable");
              broken := broken st |})
  else
    (Raise (FritzConnectionException (String.append "unknown action: " action)), st).

Definition sim_open (address user password : atom) (st : state)
    : result FritzConnection * state :=
  if truthy address && truthy user && truthy password
  then (Ok box, st)
  else (Raise (FritzConnectionException "authorization failed"), st).

Definition sim_sleep (secs : Z) (st : state) : state :=
  if Z.ltb 3 secs
  then {| up := target st; target := target st; broken := broken st |}
  else st.

#[export] Instance sim_runtime : Runtime state := {
  fc_open := sim_open;
  fc_call_action := fun _ _ => sim_action;
  time_sleep := sim_sleep;
  load_dotenv := fun env => env
}.

Definition router_down : state := {| up := false; target := false; broken := None |}.
Definition router_up : state := {| up := true; target := true; broken := None |}.
Definition router_broken (action : string) : state :=
  {| up := true; target := true; broken := Some action |}.

Definition credentials : gmap string string :=
  {[ "FRITZBOX_ADDRESS" := "192.168.178.1";
     "FRITZBOX_USER" := "admin";
     "FRITZBOX_PASS" := "secret" ]}.

Definition start (st : state) : world state := World st credentials [] [].

(** A start with no password configured. *)
Definition start_without_password : world state :=
  World router_down (delete "FRITZBOX_PASS" credentials) [] [].

Definition controller : FritzBoxGuestWiFiControl := __init__ box.

End Sim.

(** ** Running the controller *)

Definition SERVICE : string := "WLANConfiguration3".

(** What [__guestwifi_action] makes of the outcome of [call_action]: a
    FritzConnectionException becomes an error dict and a log record, any
    other outcome is passed on. *)
Definition action_result (o : result (gmap string atom)) : result (gmap string atom) :=
  match o with
  | Raise (FritzConnectionException msg) => Ok {[ "error" := AStr msg ]}
  | _ => o
  end.

Definition action_log (o : result (gmap string atom)) : list logrecord :=
  match o with
  | Raise (FritzConnectionException msg) => [Log EXCEPTION msg []]
  | _ => []
  end.

(** The five fields of the dict [get_info] returns, as paths. *)
Definition version_field : list string := ["fritzbox"; "version"].
Definition model_field : list string := ["fritzbox"; "model"].
Definition enabled_field : list string := ["fritzbox"; "guestwifi"; "enabled"].
Definition ssid_field : list string := ["fritzbox"; "guestwifi"; "ssid"].
Definition stats_field : list string := ["fritzbox"; "guestwifi"; "stats"].

Definition info_fields : list (list string) :=
  [version_field; model_field; enabled_field; ssid_field; stats_field].

(** The settings the module asserts at import. *)
Definition required_settings : list string :=
  ["FRITZBOX_ADDRESS"; "FRITZBOX_USER"; "FRITZBOX_PASS"].

(** ** A router behind an unreliable network

    The simulated router reached over a network that carries [budget] more
    library calls and then fails each one with a connection error of the
    HTTP library, an exception outside the FritzConnectionException
    hierarchy; [firmware] is the version string the box reports. *)
Module Flaky.

Record state : Type := {
  budget : nat;
  firmware : atom;
  inner : Sim.state
}.

Definition connection_error : exn := OtherException "ConnectionError".

Definition spend (st : state) (st' : Sim.state) : state :=
  {| budget := pred (budget st); firmware := firmware st; inner := st' |}.

Definition flaky_open (address user password : atom) (st : state)
    : result FritzConnection * state :=
  match budget st with
  | O => (Raise connection_error, st)
  | S _ =>
      (Ok {| system_version := firmware st; modelname := AStr "FRITZ!Box 7590" |},
       spend st (inner st))
  end.

Definition flaky_action (action : string) (arguments : gmap string atom) (st : state)
    : result (gmap string atom) * state :=
  match budget st with
  | O => (Raise connection_error, st)
  | S _ =>
      let '(out, st') := Sim.sim_action action arguments (inner st) in
      (out, spend st st')
  end.

Definition flaky_sleep (secs : Z) (st : state) : state :=
  {| budget := budget st; firmware := firmware st;
     inner := Sim.sim_sleep secs (inner st) |}.

#[export] Instance flaky_runtime : Runtime state := {
  fc_open := flaky_open;
  fc_call_action := fun _ _ => flaky_action;
  time_sleep := flaky_sleep;
  load_dotenv := fun env => env
}.

Definition network (calls : nat) (version : atom) (st : Sim.state) : state :=
  {| budget := calls; firmware := version; inner := st |}.

Definition start (st : state) : world state := World st Sim.credentials [] [].

End Flaky.

(** ** Bounds on what a statement does to the outside *)

(** [at_most env script m]: run in a world whose environment is [env], the
    statement [m] leaves the environment as it is and adds to the trace a
    prefix of [script], whatever the outside answers. *)
Definition at_most {R A} (env : gmap string string) (script : list event) (m : M R A)
    : Prop :=
  forall w, environ w = env ->
    environ (m w).2 = env /\
    exists evs, trace (m w).2 = trace w ++ evs /\ evs `prefix_of` script.

(** [exactly env script m]: as [at_most], and when [m] returns normally it
    has added the whole of [script]. *)
Definition exactly {R A} (env : gmap string string) (script : list event) (m : M R A)
    : Prop :=
  forall w, environ w = env ->
    environ (m w).2 = env /\
    match (m w).1 with
    | Ok _ => trace (m w).2 = trace w ++ script
    | Raise _ => exists evs, trace (m w).2 = trace w ++ evs /\ evs `prefix_of` script
    end.

(** An exception the [except] clause of [__guestwifi_action] does not
    match. *)
Definition foreign (e : exn) : Prop :=
  forall msg, e <> FritzConnectionException msg.

(** [FritzConnection(address=os.getenv(..), user=.., password=..)] under the
    environment [env], as an event. *)
Definition open_event (env : gmap string string) : event :=
  EvOpen (env_value env "FRITZBOX_ADDRESS") (env_value env "FRITZBOX_USER")
         (env_value env "FRITZBOX_PASS").

(** The connections opened along a trace. *)
Fixpoint opens (evs : list event) : list event :=
  match evs with
  | [] => []
  | EvOpen a u p :: rest => EvOpen a u p :: opens rest
  | _ :: rest => opens rest
  end.

(** The calls of the four controller methods, in the order of the source. *)
Definition status_script : list event := [EvCall SERVICE "GetInfo" ∅].

Definition info_script : list event :=
  [EvCall SERVICE "GetInfo" ∅; EvCall SERVICE "GetSSID" ∅;
   EvCall SERVICE "GetStatistics" ∅].

Definition set_script (enable : atom) : list event :=
  [EvCall SERVICE "GetInfo" ∅;
   EvCall SERVICE "SetEnable" {[ "NewEnable" := enable ]};
   EvSleep 5;
   EvCall SERVICE "GetInfo" ∅].

(** The controller calls a request can lead to, after its connection is
    open. *)
Definition request_script (q : request) : list event :=
  match q with
  | GetRoot _ => status_script
  | GetGuestwifi => info_script
  | GetGuestwifiEnable => set_script (AInt 1)
  | GetGuestwifiDisable => set_script (AInt 0)
  end.

Section Running.

Context {R : Type} `{Runtime R}.

Implicit Types (self : FritzBoxGuestWiFiControl) (c : FritzConnection) (w : world R).

Lemma guestwifi_action_run self c name arguments w o r :
  fritzbox self = Some c ->
  fc_call_action c SERVICE name (default ∅ arguments) (router w) = (o, r) ->
  __guestwifi_action self name arguments w =
    (action_result o,
     World r (environ w) (trace w ++ [EvCall SERVICE name (default ∅ arguments)])
           (log w ++ action_log o)).
Proof.
  intros Hc Hcall.
  unfold __guestwifi_action, try_except, bind, self_fritzbox, call_action.
  rewrite Hc. cbn. fold SERVICE. rewrite Hcall.
  destruct o as [d | e]; cbn.
  - by rewrite app_nil_r.
  - destruct e; cbn; by rewrite ?app_nil_r.
Qed.

Lemma guestwifi_action_closed self name arguments w :
  fritzbox self = None ->
  __guestwifi_action self name arguments w = (Raise (AttributeError "fritzbox"), w).
Proof.
  intros Hc. unfold __guestwifi_action, try_except, bind, self_fritzbox.
  by rewrite Hc.
Qed.

Lemma get_status_run self c w o r :
  fritzbox self = Some c ->
  fc_call_action c SERVICE "GetInfo" ∅ (router w) = (o, r) ->
  __get_guestwifi_status self w =
    (match action_result o with
     | Ok d => Ok (dict_get d "NewStatus")
     | Raise e => Raise e
     end,
     World r (environ w) (trace w ++ [EvCall SERVICE "GetInfo" ∅]) (log w ++ action_log o)).
Proof.
  intros Hc Hcall. unfold __get_guestwifi_status, bind.
  rewrite (guestwifi_action_run self c "GetInfo" None w o r Hc Hcall).
  by destruct (action_result o).
Qed.

Lemma get_guestwifi_status_run self c w o r :
  fritzbox self = Some c ->
  fc_call_action c SERVICE "GetInfo" ∅ (router w) = (o, r) ->
  get_guestwifi_status self w =
    (match action_result o with
     | Ok d => Ok {[ "enabled" := Atom (dict_get d "NewStatus") ]}
     | Raise e => Raise e
     end,
     World r (environ w) (trace w ++ [EvCall SERVICE "GetInfo" ∅]) (log w ++ action_log o)).
Proof.
  intros Hc Hcall. unfold get_guestwifi_status, bind.
  rewrite (get_status_run self c w o r Hc Hcall).
  by destruct (action_result o).
Qed.

Lemma atom_eq_str (a : atom) (s : string) : atom_eq a (AStr s) = true <-> a = AStr s.
Proof.
  destruct a as [| b | z | t]; cbn; try (split; [discriminate | congruence]).
  rewrite String.eqb_eq. split; congruence.
Qed.

Lemma atom_eq_str_false (a : atom) (s : string) : atom_eq a (AStr s) = false <-> a <> AStr s.
Proof.
  rewrite <- atom_eq_str. destruct (atom_eq a (AStr s)); split; congruence.
Qed.

(** The fall-through of [set_guestwifi_status]: one [SetEnable], the wait,
    one re-read. *)
Lemma set_new_status_run self c enable w o2 r2 d2 o3 r3 :
  fritzbox self = Some c ->
  fc_call_action c SERVICE "SetEnable" {[ "NewEnable" := enable ]} (router w) = (o2, r2) ->
  action_result o2 = Ok d2 ->
  fc_call_action c SERVICE "GetInfo" ∅ (time_sleep 5 r2) = (o3, r3) ->
  set_new_status self enable w =
    (match action_result o3 with
     | Ok d => Ok {[ "enabled" := Atom (dict_get d "NewStatus") ]}
     | Raise e => Raise e
     end,
     World r3 (environ w)
       (trace w ++ [EvCall SERVICE "SetEnable" {[ "NewEnable" := enable ]};
                    EvSleep 5;
                    EvCall SERVICE "GetInfo" ∅])
       (log w ++ action_log o2
              ++ [Log INFO "wait 5 seconds for status change..." []]
              ++ action_log o3)).
Proof.
  intros Hc Hset Hd2 Hget. unfold set_new_status, bind.
  rewrite (guestwifi_action_run self c "SetEnable" (Some {[ "NewEnable" := enable ]})
             w o2 r2 Hc Hset).
  rewrite Hd2. cbn.
  erewrite get_guestwifi_status_run by (cbn; eauto).
  cbn. by rewrite <- !app_assoc.
Qed.

(** The first statements of [set_guestwifi_status] up to the test. *)
Lemma set_guestwifi_status_run self c enable w o r d :
  fritzbox self = Some c ->
  fc_call_action c SERVICE "GetInfo" ∅ (router w) = (o, r) ->
  action_result o = Ok d ->
  let status := dict_get d "NewStatus" in
  let w1 := World r (environ w) (trace w ++ [EvCall SERVICE "GetInfo" ∅])
                  ((log w ++ action_log o) ++ [Log DEBUG "response: %s" [status]]) in
  set_guestwifi_status self enable w =
    if truthy enable then
      if atom_eq status (AStr "Up")
      then (Ok {[ "enabled" := Atom status ]},
            World r (environ w) (trace w1)
                  (log w1 ++ [Log INFO "already up - nothing to do" []]))
      else set_new_status self enable w1
    else
      if atom_eq status (AStr "Up")
      then set_new_status self enable w1
      else (Ok {[ "enabled" := Atom status ]},
            World r (environ w) (trace w1)
                  (log w1 ++ [Log INFO "already disabled - nothing to do" []])).
Proof.
  intros Hc Hcall Hd status w1. unfold set_guestwifi_status, bind.
  rewrite (get_status_run self c w o r Hc Hcall), Hd.
  unfold FRITZBOX_GUESTWIFI_ENABLED. cbn. fold status. fold w1.
  destruct (truthy enable), (atom_eq status (AStr "Up")); reflexivity.
Qed.

(** C1. Idempotency short-circuit: when [enable] is true and the status
    just read is "Up", or [enable] is false and the status just read is
    anything but "Up", [set_guestwifi_status] returns [{"enabled": status}]
    with the status just read; the only call made is the [GetInfo] read, so
    no [SetEnable] is sent and no time is spent waiting (the router is left
    in the state the read left it in). *)
Theorem set_guestwifi_status_short_circuit self c enable w o r d :
  fritzbox self = Some c ->
  fc_call_action c SERVICE "GetInfo" ∅ (router w) = (o, r) ->
  action_result o = Ok d ->
  (truthy enable = true /\ dict_get d "NewStatus" = AStr "Up") \/
  (truthy enable = false /\ dict_get d "NewStatus" <> AStr "Up") ->
  exists w',
    set_guestwifi_status self enable w =
      (Ok {[ "enabled" := Atom (dict_get d "NewStatus") ]}, w') /\
    router w' = r /\
    trace w' = trace w ++ [EvCall SERVICE "GetInfo" ∅].
Proof.
  intros Hc Hcall Hd Hcase.
  rewrite (set_guestwifi_status_run self c enable w o r d Hc Hcall Hd).
  destruct Hcase as [[Hen Hst] | [Hen Hst]]; rewrite Hen.
  - apply atom_eq_str in Hst. rewrite Hst. eauto.
  - apply atom_eq_str_false in Hst. rewrite Hst. eauto.
Qed.

(** C2. State-change path: when the short-circuit does not apply ([enable]
    true with a status other than "Up", or [enable] false with status
    "Up"), [set_guestwifi_status] sends exactly one [SetEnable] with
    [{"NewEnable": enable}], then sleeps 5 seconds, then reads [GetInfo]
    exactly once more and returns that status as [{"enabled": status}]. *)
Theorem set_guestwifi_status_change self c enable w o1 r1 d1 o2 r2 d2 o3 r3 d3 :
  fritzbox self = Some c ->
  fc_call_action c SERVICE "GetInfo" ∅ (router w) = (o1, r1) ->
  action_result o1 = Ok d1 ->
  (truthy enable = true /\ dict_get d1 "NewStatus" <> AStr "Up") \/
  (truthy enable = false /\ dict_get d1 "NewStatus" = AStr "Up") ->
  fc_call_action c SERVICE "SetEnable" {[ "NewEnable" := enable ]} r1 = (o2, r2) ->
  action_result o2 = Ok d2 ->
  fc_call_action c SERVICE "GetInfo" ∅ (time_sleep 5 r2) = (o3, r3) ->
  action_result o3 = Ok d3 ->
  exists w',
    set_guestwifi_status self enable w =
      (Ok {[ "enabled" := Atom (dict_get d3 "NewStatus") ]}, w') /\
    router w' = r3 /\
    trace w' = trace w ++ [EvCall SERVICE "GetInfo" ∅;
                           EvCall SERVICE "SetEnable" {[ "NewEnable" := enable ]};
                           EvSleep 5;
                           EvCall SERVICE "GetInfo" ∅].
Proof.
  intros Hc Hcall1 Hd1 Hcase Hcall2 Hd2 Hcall3 Hd3.
  rewrite (set_guestwifi_status_run self c enable w o1 r1 d1 Hc Hcall1 Hd1).
  assert (Hrun := fun w1 Hr => set_new_status_run self c enable w1 o2 r2 d2 o3 r3 Hc Hr Hd2 Hcall3).
  rewrite Hd3 in Hrun.
  destruct Hcase as [[Hen Hst] | [Hen Hst]]; rewrite Hen.
  - apply atom_eq_str_false in Hst. rewrite Hst.
    rewrite Hrun by exact Hcall2. cbn. rewrite <- app_assoc. eauto.
  - apply atom_eq_str in Hst. rewrite Hst.
    rewrite Hrun by exact Hcall2. cbn. rewrite <- app_assoc. eauto.
Qed.

Lemma get_info_run self c w o1 r1 d1 o2 r2 d2 o3 r3 d3 :
  fritzbox self = Some c ->
  fc_call_action c SERVICE "GetInfo" ∅ (router w) = (o1, r1) ->
  fc_call_action c SERVICE "GetSSID" ∅ r1 = (o2, r2) ->
  fc_call_action c SERVICE "GetStatistics" ∅ r2 = (o3, r3) ->
  action_result o1 = Ok d1 ->
  action_result o2 = Ok d2 ->
  action_result o3 = Ok d3 ->
  exists v w',
    get_info self w = (Ok v, w') /\
    router w' = r3 /\
    trace w' = trace w ++ [EvCall SERVICE "GetInfo" ∅;
                           EvCall SERVICE "GetSSID" ∅;
                           EvCall SERVICE "GetStatistics" ∅] /\
    py_path v version_field = Some (Atom (system_version c)) /\
    py_path v model_field = Some (Atom (modelname c)) /\
    py_path v enabled_field = Some (Atom (dict_get d1 "NewStatus")) /\
    py_path v ssid_field = Some (Atom (dict_get d2 "NewSSID")) /\
    py_path v stats_field = Some (of_flat d3).
Proof.
  intros Hc H1 H2 H3 Hd1 Hd2 Hd3.
  unfold get_info, bind, self_fritzbox. rewrite Hc. cbn.
  rewrite (get_status_run self c w o1 r1 Hc H1), Hd1.
  erewrite (guestwifi_action_run self c "GetSSID" None) by (cbn; eauto).
  rewrite Hd2.
  erewrite (guestwifi_action_run self c "GetStatistics" None) by (cbn; eauto).
  rewrite Hd3. unfold ret.
  eexists _, _. split; [reflexivity |].
  split; [reflexivity |].
  split; [cbn; by rewrite <- !app_assoc |].
  repeat split; vm_compute; reflexivity.
Qed.

Lemma get_info_log self c w o1 r1 d1 o2 r2 d2 o3 r3 d3 :
  fritzbox self = Some c ->
  fc_call_action c SERVICE "GetInfo" ∅ (router w) = (o1, r1) ->
  fc_call_action c SERVICE "GetSSID" ∅ r1 = (o2, r2) ->
  fc_call_action c SERVICE "GetStatistics" ∅ r2 = (o3, r3) ->
  action_result o1 = Ok d1 ->
  action_result o2 = Ok d2 ->
  action_result o3 = Ok d3 ->
  log (get_info self w).2 = log w ++ action_log o1 ++ action_log o2 ++ action_log o3.
Proof.
  intros Hc H1 H2 H3 Hd1 Hd2 Hd3.
  unfold get_info, bind, self_fritzbox. rewrite Hc. cbn.
  rewrite (get_status_run self c w o1 r1 Hc H1), Hd1.
  erewrite (guestwifi_action_run self c "GetSSID" None) by (cbn; eauto).
  rewrite Hd2.
  erewrite (guestwifi_action_run self c "GetStatistics" None) by (cbn; eauto).
  rewrite Hd3. cbn. by rewrite <- !app_assoc.
Qed.

Lemma action_log_failure (msg : string) :
  action_log (Raise (FritzConnectionException msg)) = [Log EXCEPTION msg []].
Proof. reflexivity. Qed.

Lemma of_flat_error (msg : string) :
  of_flat {[ "error" := AStr msg ]} = Dict {[ "error" := Atom (AStr msg) ]}.
Proof. unfold of_flat. by rewrite map_fmap_singleton. Qed.

Lemma action_result_failure msg d :
  action_result (Raise (FritzConnectionException msg)) = Ok d ->
  d = {[ "error" := AStr msg ]}.
Proof. cbn. congruence. Qed.

Lemma error_dict_get (msg key : string) :
  key <> "error" -> dict_get {[ "error" := AStr msg ]} key = ANone.
Proof. intros Hne. unfold dict_get. by rewrite lookup_singleton_ne. Qed.

(** C3 (amended). Aggregation resilience of [get_info]: when each of the
    three actions either returns or fails with a FritzConnectionException,
    [get_info] returns the complete structure with its five fields and
    issues all three calls.  A failed [GetStatistics] leaves the error
    marker [{"error": msg}] in [stats]; a failed [GetInfo] leaves [None] in
    [enabled] and a failed [GetSSID] leaves [None] in [ssid].  Each failure
    is logged with its description: the log grows by one EXCEPTION record
    per failed action and by nothing else. *)
Theorem get_info_action_failure self c w o1 r1 d1 o2 r2 d2 o3 r3 d3 :
  fritzbox self = Some c ->
  fc_call_action c SERVICE "GetInfo" ∅ (router w) = (o1, r1) ->
  fc_call_action c SERVICE "GetSSID" ∅ r1 = (o2, r2) ->
  fc_call_action c SERVICE "GetStatistics" ∅ r2 = (o3, r3) ->
  action_result o1 = Ok d1 ->
  action_result o2 = Ok d2 ->
  action_result o3 = Ok d3 ->
  exists v w',
    get_info self w = (Ok v, w') /\
    trace w' = trace w ++ [EvCall SERVICE "GetInfo" ∅;
                           EvCall SERVICE "GetSSID" ∅;
                           EvCall SERVICE "GetStatistics" ∅] /\
    log w' = log w ++ action_log o1 ++ action_log o2 ++ action_log o3 /\
    (forall p, p ∈ info_fields -> is_Some (py_path v p)) /\
    (forall msg, o1 = Raise (FritzConnectionException msg) ->
       py_path v enabled_field = Some (Atom ANone) /\
       action_log o1 = [Log EXCEPTION msg []] /\
       Log EXCEPTION msg [] ∈ log w') /\
    (forall msg, o2 = Raise (FritzConnectionException msg) ->
       py_path v ssid_field = Some (Atom ANone) /\
       action_log o2 = [Log EXCEPTION msg []] /\
       Log EXCEPTION msg [] ∈ log w') /\
    (forall msg, o3 = Raise (FritzConnectionException msg) ->
       py_path v stats_field = Some (Dict {[ "error" := Atom (AStr msg) ]}) /\
       action_log o3 = [Log EXCEPTION msg []] /\
       Log EXCEPTION msg [] ∈ log w').
Proof.
  intros Hc H1 H2 H3 Hd1 Hd2 Hd3.
  destruct (get_info_run self c w o1 r1 d1 o2 r2 d2 o3 r3 d3)
    as (v & w' & Hrun & _ & Htr & Hv & Hm & He & Hs & Hst); try assumption.
  assert (Hlog := get_info_log self c w o1 r1 d1 o2 r2 d2 o3 r3 d3
                    Hc H1 H2 H3 Hd1 Hd2 Hd3).
  rewrite Hrun in Hlog. cbn in Hlog.
  exists v, w'. split; [exact Hrun |]. split; [exact Htr |]. split; [exact Hlog |].
  split; [| split; [| split]].
  - intros p Hp. unfold info_fields in Hp.
    repeat (apply elem_of_cons in Hp as [-> | Hp]); eauto.
    by apply elem_of_nil in Hp.
  - intros msg ->. apply action_result_failure in Hd1 as ->.
    split; [by rewrite He, error_dict_get |]. split; [reflexivity |].
    rewrite Hlog, action_log_failure. set_solver.
  - intros msg ->. apply action_result_failure in Hd2 as ->.
    split; [by rewrite Hs, error_dict_get |]. split; [reflexivity |].
    rewrite Hlog, action_log_failure. set_solver.
  - intros msg ->. apply action_result_failure in Hd3 as ->.
    split; [by rewrite Hst, of_flat_error |]. split; [reflexivity |].
    rewrite Hlog, action_log_failure. set_solver.
Qed.

(** C4 (amended). Status read with a failing [GetInfo]: when the action
    raises a FritzConnectionException, [get_guestwifi_status] returns
    [{"enabled": None}]; no exception leaves the controller, and the failure
    description goes to the log only. *)
Theorem get_guestwifi_status_failure self c w msg r :
  fritzbox self = Some c ->
  fc_call_action c SERVICE "GetInfo" ∅ (router w) =
    (Raise (FritzConnectionException msg), r) ->
  get_guestwifi_status self w =
    (Ok {[ "enabled" := Atom ANone ]},
     World r (environ w) (trace w ++ [EvCall SERVICE "GetInfo" ∅])
           (log w ++ [Log EXCEPTION msg []])).
Proof.
  intros Hc Hcall.
  rewrite (get_guestwifi_status_run self c w _ r Hc Hcall). cbn.
  by rewrite error_dict_get.
Qed.

(** The fall-through always sends [SetEnable] first. *)
Lemma set_new_status_sends self c enable w :
  fritzbox self = Some c ->
  exists res w' rest,
    set_new_status self enable w = (res, w') /\
    trace w' = trace w ++ EvCall SERVICE "SetEnable" {[ "NewEnable" := enable ]} :: rest.
Proof.
  intros Hc.
  destruct (fc_call_action c SERVICE "SetEnable" {[ "NewEnable" := enable ]} (router w))
    as [o2 r2] eqn:Hset.
  destruct (action_result o2) as [d2 | e] eqn:Hd2.
  - destruct (fc_call_action c SERVICE "GetInfo" ∅ (time_sleep 5 r2)) as [o3 r3] eqn:Hget.
    rewrite (set_new_status_run self c enable w o2 r2 d2 o3 r3 Hc Hset Hd2 Hget).
    eexists _, _, _. split; reflexivity.
  - unfold set_new_status, bind.
    rewrite (guestwifi_action_run self c "SetEnable" (Some {[ "NewEnable" := enable ]})
               w o2 r2 Hc Hset), Hd2.
    eexists _, _, []. split; reflexivity.
Qed.

(** C5. Status string contract: for whatever string [s] the router
    reports as its status, the controller takes the guest WiFi to be on
    exactly when [s] is "Up", and knows no third state.  With [enable] true
    it writes [SetEnable] exactly when [s] is not "Up", with [enable] false
    exactly when [s] is "Up".  When it does not write
    it returns [{"enabled": s}] after the read alone (for [s] other than
    "Up" and [enable] false this is the already-disabled short-circuit);
    when it writes it takes the whole state-change path (for [s] other than
    "Up" and [enable] true): one [SetEnable] with [{"NewEnable": enable}],
    5 seconds of sleep, one more [GetInfo], whose status it returns. *)
Theorem status_string_contract self c w d r s :
  fritzbox self = Some c ->
  fc_call_action c SERVICE "GetInfo" ∅ (router w) = (Ok d, r) ->
  d !! "NewStatus" = Some (AStr s) ->
  (forall enable,
     exists evs,
       trace (set_guestwifi_status self enable w).2 = trace w ++ evs /\
       (EvCall SERVICE "SetEnable" {[ "NewEnable" := enable ]} ∈ evs <->
        (truthy enable = true /\ s <> "Up") \/ (truthy enable = false /\ s = "Up"))) /\
  (forall enable,
     (truthy enable = true /\ s = "Up") \/ (truthy enable = false /\ s <> "Up") ->
     exists w',
       set_guestwifi_status self enable w = (Ok {[ "enabled" := Atom (AStr s) ]}, w') /\
       router w' = r /\
       trace w' = trace w ++ [EvCall SERVICE "GetInfo" ∅]) /\
  (forall enable o2 r2 d2 o3 r3 d3,
     (truthy enable = true /\ s <> "Up") \/ (truthy enable = false /\ s = "Up") ->
     fc_call_action c SERVICE "SetEnable" {[ "NewEnable" := enable ]} r = (o2, r2) ->
     action_result o2 = Ok d2 ->
     fc_call_action c SERVICE "GetInfo" ∅ (time_sleep 5 r2) = (o3, r3) ->
     action_result o3 = Ok d3 ->
     exists w',
       set_guestwifi_status self enable w =
         (Ok {[ "enabled" := Atom (dict_get d3 "NewStatus") ]}, w') /\
       router w' = r3 /\
       trace w' = trace w ++ [EvCall SERVICE "GetInfo" ∅;
                              EvCall SERVICE "SetEnable" {[ "NewEnable" := enable ]};
                              EvSleep 5;
                              EvCall SERVICE "GetInfo" ∅]).
Proof.
  intros Hc Hcall Hs.
  assert (Hst : dict_get d "NewStatus" = AStr s) by (unfold dict_get; by rewrite Hs).
  assert (Hrun := fun enable =>
            set_guestwifi_status_run self c enable w (Ok d) r d Hc Hcall eq_refl).
  cbv zeta in Hrun. rewrite Hst in Hrun.
  split; [| split].
  - intros enable. rewrite (Hrun enable).
    destruct (decide (s = "Up")) as [Hs' | Hs'].
    + assert (Heq : atom_eq (AStr s) (AStr "Up") = true)
        by (apply atom_eq_str; congruence).
      rewrite Heq. destruct (truthy enable) eqn:Hen.
      * exists [EvCall SERVICE "GetInfo" ∅]. split; [reflexivity |]. split.
        -- intros Hin. apply list_elem_of_singleton in Hin. discriminate.
        -- intros [[_ Hne] | [Hf _]]; [contradiction | discriminate].
      * edestruct (set_new_status_sends self c enable) as (res & w' & rest & -> & Htr);
          [exact Hc |].
        exists (EvCall SERVICE "GetInfo" ∅
                :: EvCall SERVICE "SetEnable" {[ "NewEnable" := enable ]} :: rest).
        split; [cbn; rewrite Htr; cbn; by rewrite <- app_assoc |]. split.
        -- intros _. by right.
        -- intros _. set_solver.
    + assert (Heq : atom_eq (AStr s) (AStr "Up") = false)
        by (apply atom_eq_str_false; congruence).
      rewrite Heq. destruct (truthy enable) eqn:Hen.
      * edestruct (set_new_status_sends self c enable) as (res & w' & rest & -> & Htr);
          [exact Hc |].
        exists (EvCall SERVICE "GetInfo" ∅
                :: EvCall SERVICE "SetEnable" {[ "NewEnable" := enable ]} :: rest).
        split; [cbn; rewrite Htr; cbn; by rewrite <- app_assoc |]. split.
        -- intros _. by left.
        -- intros _. set_solver.
      * exists [EvCall SERVICE "GetInfo" ∅]. split; [reflexivity |]. split.
        -- intros Hin. apply list_elem_of_singleton in Hin. discriminate.
        -- intros [[Hf _] | [_ He]]; [discriminate | contradiction].
  - intros enable Hcase. rewrite (Hrun enable).
    destruct Hcase as [[Hen Hs'] | [Hen Hs']]; rewrite Hen.
    + assert (Heq : atom_eq (AStr s) (AStr "Up") = true)
        by (apply atom_eq_str; congruence).
      rewrite Heq. eauto.
    + assert (Heq : atom_eq (AStr s) (AStr "Up") = false)
        by (apply atom_eq_str_false; congruence).
      rewrite Heq. eauto.
  - intros enable o2 r2 d2 o3 r3 d3 Hcase Hset Hd2 Hget Hd3. rewrite (Hrun enable).
    assert (Hgo := fun w1 Hr =>
              set_new_status_run self c enable w1 o2 r2 d2 o3 r3 Hc Hr Hd2 Hget).
    rewrite Hd3 in Hgo.
    destruct Hcase as [[Hen Hs'] | [Hen Hs']]; rewrite Hen.
    + assert (Heq : atom_eq (AStr s) (AStr "Up") = false)
        by (apply atom_eq_str_false; congruence).
      rewrite Heq, Hgo by exact Hset. cbn. rewrite <- app_assoc. eauto.
    + assert (Heq : atom_eq (AStr s) (AStr "Up") = true)
        by (apply atom_eq_str; congruence).
      rewrite Heq, Hgo by exact Hset. cbn. rewrite <- app_assoc. eauto.
Qed.

(** C6. Aggregation resilience, [GetStatistics]: when [GetStatistics]
    raises a FritzConnectionException while [GetInfo] and [GetSSID] return,
    [get_info] returns the complete structure: version, model, the status
    and the SSID the router gave, and [{"error": msg}] in [stats]; of the
    five fields, [stats] is the only one that holds an error marker. *)
Theorem get_info_statistics_failure self c w d1 r1 d2 r2 msg r3 :
  fritzbox self = Some c ->
  fc_call_action c SERVICE "GetInfo" ∅ (router w) = (Ok d1, r1) ->
  fc_call_action c SERVICE "GetSSID" ∅ r1 = (Ok d2, r2) ->
  fc_call_action c SERVICE "GetStatistics" ∅ r2 =
    (Raise (FritzConnectionException msg), r3) ->
  exists v w',
    get_info self w = (Ok v, w') /\
    py_path v version_field = Some (Atom (system_version c)) /\
    py_path v model_field = Some (Atom (modelname c)) /\
    py_path v enabled_field = Some (Atom (dict_get d1 "NewStatus")) /\
    py_path v ssid_field = Some (Atom (dict_get d2 "NewSSID")) /\
    py_path v stats_field = Some (Dict {[ "error" := Atom (AStr msg) ]}) /\
    (forall p, p ∈ info_fields ->
       exists x, py_path v p = Some x /\
                 (is_error_marker x = true <-> p = stats_field)).
Proof.
  intros Hc H1 H2 H3.
  destruct (get_info_run self c w (Ok d1) r1 d1 (Ok d2) r2 d2
              (Raise (FritzConnectionException msg)) r3 {[ "error" := AStr msg ]})
    as (v & w' & Hrun & _ & _ & Hv & Hm & He & Hs & Hst); try assumption; try reflexivity.
  rewrite of_flat_error in Hst.
  exists v, w'. repeat (split; [assumption |]).
  intros p Hp. unfold info_fields in Hp.
  repeat (apply elem_of_cons in Hp as [-> | Hp]); [.. | by apply elem_of_nil in Hp].
  1-4: eexists; split; [eassumption |]; split; [discriminate | discriminate].
  eexists; split; [eassumption |]. split; [reflexivity |]. intros _.
  unfold is_error_marker, error_of. apply bool_decide_eq_true.
  rewrite lookup_singleton_eq. eauto.
Qed.

(** C7. Read round-trip: [get_guestwifi_status] on a live controller makes
    one [GetInfo] call and nothing else (no [SetEnable], no sleep); and when
    that read leaves the router in the state it found it in, calling
    [get_guestwifi_status] again straight away gives the same result. *)
Theorem get_guestwifi_status_read_only self c w :
  fritzbox self = Some c ->
  trace (get_guestwifi_status self w).2 = trace w ++ [EvCall SERVICE "GetInfo" ∅] /\
  (router (get_guestwifi_status self w).2 = router w ->
   (get_guestwifi_status self (get_guestwifi_status self w).2).1 =
   (get_guestwifi_status self w).1).
Proof.
  intros Hc.
  destruct (fc_call_action c SERVICE "GetInfo" ∅ (router w)) as [o r] eqn:Hcall.
  rewrite (get_guestwifi_status_run self c w o r Hc Hcall). cbn.
  split; [reflexivity |]. intros ->.
  set (w1 := World (router w) _ _ _).
  by rewrite (get_guestwifi_status_run self c w1 o (router w) Hc Hcall).
Qed.

(** C9. Status read failing before a write: when the first [GetInfo] of
    [set_guestwifi_status] raises a FritzConnectionException, the status is
    [None]; with a false [enable] the method returns [{"enabled": None}]
    after the read alone, without [SetEnable]; with a true [enable] it goes
    on to send [SetEnable], sleeps 5 seconds and reads again, returning the
    status read last. *)
Theorem set_guestwifi_status_read_failure self c w msg r1 :
  fritzbox self = Some c ->
  fc_call_action c SERVICE "GetInfo" ∅ (router w) =
    (Raise (FritzConnectionException msg), r1) ->
  (forall enable, truthy enable = false ->
     exists w',
       set_guestwifi_status self enable w = (Ok {[ "enabled" := Atom ANone ]}, w') /\
       router w' = r1 /\
       trace w' = trace w ++ [EvCall SERVICE "GetInfo" ∅]) /\
  (forall enable o2 r2 d2 o3 r3 d3,
     truthy enable = true ->
     fc_call_action c SERVICE "SetEnable" {[ "NewEnable" := enable ]} r1 = (o2, r2) ->
     action_result o2 = Ok d2 ->
     fc_call_action c SERVICE "GetInfo" ∅ (time_sleep 5 r2) = (o3, r3) ->
     action_result o3 = Ok d3 ->
     exists w',
       set_guestwifi_status self enable w =
         (Ok {[ "enabled" := Atom (dict_get d3 "NewStatus") ]}, w') /\
       router w' = r3 /\
       trace w' = trace w ++ [EvCall SERVICE "GetInfo" ∅;
                              EvCall SERVICE "SetEnable" {[ "NewEnable" := enable ]};
                              EvSleep 5;
                              EvCall SERVICE "GetInfo" ∅]).
Proof.
  intros Hc Hcall.
  assert (Hst : dict_get {[ "error" := AStr msg ]} "NewStatus" = ANone)
    by by apply error_dict_get.
  split.
  - intros enable Hen.
    rewrite (set_guestwifi_status_run self c enable w _ r1 _ Hc Hcall eq_refl).
    rewrite Hen, Hst. cbn. eauto.
  - intros enable o2 r2 d2 o3 r3 d3 Hen Hset Hd2 Hget Hd3.
    rewrite (set_guestwifi_status_run self c enable w _ r1 _ Hc Hcall eq_refl).
    rewrite Hen, Hst. cbn.
    erewrite set_new_status_run by eauto.
    rewrite Hd3. cbn. rewrite <- app_assoc. eauto.
Qed.

(** C10. After [close]: [close] removes the [fritzbox] attribute, and on
    the instance it leaves behind [get_info], [get_guestwifi_status],
    [set_guestwifi_status] and [close] itself all raise AttributeError with
    the world untouched: no action is sent to the router, nothing is
    logged. *)
Theorem closed_controller_raises self w self' w' :
  close self w = (Ok self', w') ->
  fritzbox self' = None /\
  get_info self' w' = (Raise (AttributeError "fritzbox"), w') /\
  get_guestwifi_status self' w' = (Raise (AttributeError "fritzbox"), w') /\
  (forall enable,
     set_guestwifi_status self' enable w' = (Raise (AttributeError "fritzbox"), w')) /\
  close self' w' = (Raise (AttributeError "fritzbox"), w').
Proof.
  unfold close. destruct (fritzbox self) as [c |] eqn:Hc; [| discriminate].
  intros [= <- <-]. split; [reflexivity |].
  assert (Hst : __get_guestwifi_status {| fritzbox := None |} w
                = (Raise (AttributeError "fritzbox"), w)).
  { unfold __get_guestwifi_status, bind. by rewrite guestwifi_action_closed. }
  split; [| split; [| split]].
  - reflexivity.
  - unfold get_guestwifi_status, bind. by rewrite Hst.
  - intros enable. unfold set_guestwifi_status, bind. by rewrite Hst.
  - reflexivity.
Qed.

(** ** Start-up *)

(** C8. Start-up configuration check: when, once [load_dotenv] has run, one
    of FRITZBOX_ADDRESS, FRITZBOX_USER and FRITZBOX_PASS is missing from the
    environment or empty, the module raises AssertionError while it is
    imported: the process ends before any request is served, and neither a
    connection nor a router action has been attempted. *)
Theorem startup_requires_settings (qs : list request) w key :
  key ∈ required_settings ->
  load_dotenv (environ w) !! key = None \/ load_dotenv (environ w) !! key = Some "" ->
  exists w',
    process qs w = (Raise AssertionError, w') /\
    router w' = router w /\
    trace w' = trace w.
Proof.
  intros Hkey Hval.
  assert (Hfalse : truthy (env_value (load_dotenv (environ w)) key) = false)
    by (unfold env_value; destruct Hval as [-> | ->]; reflexivity).
  unfold process, module_startup, bind, do_load_dotenv, getenv, py_assert. cbn.
  unfold required_settings in Hkey.
  repeat (apply elem_of_cons in Hkey as [-> | Hkey]); [.. | by apply elem_of_nil in Hkey].
  - rewrite Hfalse. cbn. eauto.
  - destruct (truthy (env_value _ "FRITZBOX_ADDRESS")); cbn; [| by eauto].
    rewrite Hfalse. cbn. eauto.
  - destruct (truthy (env_value _ "FRITZBOX_ADDRESS")); cbn; [| by eauto].
    destruct (truthy (env_value _ "FRITZBOX_USER")); cbn; [| by eauto].
    rewrite Hfalse. cbn. eauto.
Qed.

End Running.

(** ** Runs on the simulated router *)

Section SimRuns.

Import Sim.

(** The whole process on a router that is off: the page shows the guest
    WiFi disabled, the enable request turns it on and redirects. *)
Example process_enable :
  (process [GetRoot (Atom ANone); GetGuestwifiEnable; GetRoot (Atom ANone)]
     (start router_down)).1 =
  Ok [TemplateResponse "index.html"
        {[ "request" := Atom ANone;
           "guestwifi_enabled" := Atom (ABool false);
           "header_message" := Atom (AStr "");
           "version" := Atom (AStr "1.3.3");
           "updated" := Atom (AStr "2022-10-16") ]};
      RedirectResponse (AStr "/");
      TemplateResponse "index.html"
        {[ "request" := Atom ANone;
           "guestwifi_enabled" := Atom (ABool true);
           "header_message" := Atom (AStr "");
           "version" := Atom (AStr "1.3.3");
           "updated" := Atom (AStr "2022-10-16") ]}].
Proof. vm_compute. reflexivity. Qed.

Example process_enable_trace :
  trace (process [GetGuestwifiEnable] (start router_down)).2 =
  [EvOpen (AStr "192.168.178.1") (AStr "admin") (AStr "secret");
   EvOpen (AStr "192.168.178.1") (AStr "admin") (AStr "secret");
   EvCall SERVICE "GetInfo" ∅;
   EvCall SERVICE "SetEnable" {[ "NewEnable" := AInt 1 ]};
   EvSleep 5;
   EvCall SERVICE "GetInfo" ∅].
Proof. vm_compute. reflexivity. Qed.

(** The JSON of [/guestwifi] when the statistics are out of order. *)
Example guestwifi_statistics_broken :
  (serve_request GetGuestwifi (start (router_broken "GetStatistics"))).1 =
  Ok (JSONResponse (Dict {[
    "fritzbox" := Dict {[
      "version" := Atom (AStr "7.29");
      "model" := Atom (AStr "FRITZ!Box 7590");
      "guestwifi" := Dict {[
        "enabled" := Atom (AStr "Up");
        "ssid" := Atom (AStr "FRITZ!Box Gastzugang");
        "stats" := Dict {[ "error" := Atom (AStr "UPnPError: GetStatistics") ]} ]} ]} ]})).
Proof. vm_compute. reflexivity. Qed.

Lemma set_guestwifi_status_short_circuit_witness :
  exists w',
    set_guestwifi_status controller (ABool true) (start router_up) =
      (Ok {[ "enabled" := Atom (dict_get (info true true) "NewStatus") ]}, w') /\
    router w' = router_up /\
    trace w' = trace (start router_up) ++ [EvCall SERVICE "GetInfo" ∅].
Proof.
  apply (set_guestwifi_status_short_circuit controller box (ABool true) (start router_up)
           (Ok (info true true)) router_up (info true true)).
  - reflexivity.
  - vm_compute. reflexivity.
  - reflexivity.
  - left. split; vm_compute; reflexivity.
Defined.

Lemma set_guestwifi_status_change_witness :
  exists w',
    set_guestwifi_status controller (AInt 1) (start router_down) =
      (Ok {[ "enabled" := Atom (dict_get (info true true) "NewStatus") ]}, w') /\
    router w' = router_up /\
    trace w' = trace (start router_down)
               ++ [EvCall SERVICE "GetInfo" ∅;
                   EvCall SERVICE "SetEnable" {[ "NewEnable" := AInt 1 ]};
                   EvSleep 5;
                   EvCall SERVICE "GetInfo" ∅].
Proof.
  apply (set_guestwifi_status_change controller box (AInt 1) (start router_down)
           (Ok (info false false)) router_down (info false false)
           (Ok ∅) {| up := false; target := true; broken := None |} ∅
           (Ok (info true true)) router_up (info true true)).
  - reflexivity.
  - vm_compute. reflexivity.
  - reflexivity.
  - left. split; [reflexivity | vm_compute; discriminate].
  - vm_compute. reflexivity.
  - reflexivity.
  - vm_compute. reflexivity.
  - reflexivity.
Defined.

(** C3, as stated, fails: with [GetInfo] out of order and the other two
    actions answering, [get_info] returns the structure with [None] in
    [enabled], which is no error marker and holds no failure description. *)
Lemma get_info_status_failure_unmarked :
  fc_call_action box SERVICE "GetInfo" ∅ (router_broken "GetInfo") =
    (Raise (upnp_error "GetInfo"), router_broken "GetInfo") /\
  fc_call_action box SERVICE "GetSSID" ∅ (router_broken "GetInfo") =
    (Ok ssid, router_broken "GetInfo") /\
  fc_call_action box SERVICE "GetStatistics" ∅ (router_broken "GetInfo") =
    (Ok statistics, router_broken "GetInfo") /\
  exists v w',
    get_info controller (start (router_broken "GetInfo")) = (Ok v, w') /\
    py_path v enabled_field = Some (Atom ANone) /\
    is_error_marker (Atom ANone) = false.
Proof.
  repeat (split; [vm_compute; reflexivity |]).
  eexists _, _. repeat split; vm_compute; reflexivity.
Qed.

Lemma get_info_action_failure_witness :
  exists v w',
    get_info controller (start (router_broken "GetSSID")) = (Ok v, w') /\
    (forall p, p ∈ info_fields -> is_Some (py_path v p)) /\
    py_path v ssid_field = Some (Atom ANone) /\
    log w' = [Log EXCEPTION "UPnPError: GetSSID" []].
Proof.
  destruct (get_info_action_failure controller box (start (router_broken "GetSSID"))
              (Ok (info true true)) (router_broken "GetSSID") (info true true)
              (Raise (upnp_error "GetSSID")) (router_broken "GetSSID")
              {[ "error" := AStr "UPnPError: GetSSID" ]}
              (Ok statistics) (router_broken "GetSSID") statistics)
    as (v & w' & Hrun & _ & Hlog & Hall & _ & Hssid & _);
    try (vm_compute; reflexivity).
  exists v, w'. split; [exact Hrun |]. split; [exact Hall |].
  split; [exact (proj1 (Hssid _ eq_refl)) | exact Hlog].
Defined.

(** C4, as stated, fails: with [GetInfo] out of order,
    [get_guestwifi_status] returns [{"enabled": None}], not
    [{"enabled": {"error": message}}]. *)
Lemma get_guestwifi_status_failure_unmarked :
  fc_call_action box SERVICE "GetInfo" ∅ (router_broken "GetInfo") =
    (Raise (FritzConnectionException "UPnPError: GetInfo"), router_broken "GetInfo") /\
  (get_guestwifi_status controller (start (router_broken "GetInfo"))).1 =
    Ok {[ "enabled" := Atom ANone ]} /\
  (get_guestwifi_status controller (start (router_broken "GetInfo"))).1 <>
    Ok {[ "enabled" := Dict {[ "error" := Atom (AStr "UPnPError: GetInfo") ]} ]}.
Proof.
  split; [vm_compute; reflexivity |].
  split; [vm_compute; reflexivity |].
  vm_compute. discriminate.
Qed.

Lemma get_guestwifi_status_failure_witness :
  get_guestwifi_status controller (start (router_broken "GetInfo")) =
    (Ok {[ "enabled" := Atom ANone ]},
     World (router_broken "GetInfo") (environ (start (router_broken "GetInfo")))
           (trace (start (router_broken "GetInfo")) ++ [EvCall SERVICE "GetInfo" ∅])
           (log (start (router_broken "GetInfo")) ++ [Log EXCEPTION "UPnPError: GetInfo" []])).
Proof.
  apply (get_guestwifi_status_failure controller box (start (router_broken "GetInfo"))
           "UPnPError: GetInfo" (router_broken "GetInfo")).
  - reflexivity.
  - vm_compute. reflexivity.
Defined.

Lemma status_string_contract_witness :
  (exists w',
     set_guestwifi_status controller (AInt 0) (start router_down) =
       (Ok {[ "enabled" := Atom (AStr "Disabled") ]}, w') /\
     router w' = router_down /\
     trace w' = trace (start router_down) ++ [EvCall SERVICE "GetInfo" ∅]) /\
  (exists w',
     set_guestwifi_status controller (AInt 1) (start router_down) =
       (Ok {[ "enabled" := Atom (dict_get (info true true) "NewStatus") ]}, w') /\
     router w' = router_up /\
     trace w' = trace (start router_down)
                ++ [EvCall SERVICE "GetInfo" ∅;
                    EvCall SERVICE "SetEnable" {[ "NewEnable" := AInt 1 ]};
                    EvSleep 5;
                    EvCall SERVICE "GetInfo" ∅]).
Proof.
  destruct (status_string_contract controller box (start router_down)
              (info false false) router_down "Disabled")
    as (_ & Hstay & Hgo).
  - reflexivity.
  - vm_compute. reflexivity.
  - vm_compute. reflexivity.
  - split.
    + apply Hstay. right. split; [reflexivity | discriminate].
    + apply (Hgo (AInt 1) (Ok ∅) {| up := false; target := true; broken := None |} ∅
               (Ok (info true true)) router_up (info true true)).
      * left. split; [reflexivity | discriminate].
      * vm_compute. reflexivity.
      * reflexivity.
      * vm_compute. reflexivity.
      * reflexivity.
Defined.

Lemma get_info_statistics_failure_witness :
  exists v w',
    get_info controller (start (router_broken "GetStatistics")) = (Ok v, w') /\
    py_path v version_field = Some (Atom (system_version box)) /\
    py_path v model_field = Some (Atom (modelname box)) /\
    py_path v enabled_field = Some (Atom (dict_get (info true true) "NewStatus")) /\
    py_path v ssid_field = Some (Atom (dict_get ssid "NewSSID")) /\
    py_path v stats_field =
      Some (Dict {[ "error" := Atom (AStr "UPnPError: GetStatistics") ]}) /\
    (forall p, p ∈ info_fields ->
       exists x, py_path v p = Some x /\
                 (is_error_marker x = true <-> p = stats_field)).
Proof.
  apply (get_info_statistics_failure controller box (start (router_broken "GetStatistics"))
           (info true true) (router_broken "GetStatistics")
           ssid (router_broken "GetStatistics")
           "UPnPError: GetStatistics" (router_broken "GetStatistics"));
    vm_compute; reflexivity.
Defined.

Lemma get_guestwifi_status_read_only_witness :
  trace (get_guestwifi_status controller (start router_up)).2 =
    trace (start router_up) ++ [EvCall SERVICE "GetInfo" ∅] /\
  (get_guestwifi_status controller (get_guestwifi_status controller (start router_up)).2).1 =
  (get_guestwifi_status controller (start router_up)).1.
Proof.
  destruct (get_guestwifi_status_read_only controller box (start router_up))
    as [Htrace Hsame].
  - reflexivity.
  - split; [exact Htrace |]. apply Hsame. vm_compute. reflexivity.
Defined.

Lemma set_guestwifi_status_read_failure_witness :
  (exists w',
     set_guestwifi_status controller (AInt 0) (start (router_broken "GetInfo")) =
       (Ok {[ "enabled" := Atom ANone ]}, w') /\
     router w' = router_broken "GetInfo" /\
     trace w' = trace (start (router_broken "GetInfo")) ++ [EvCall SERVICE "GetInfo" ∅]) /\
  (exists w',
     set_guestwifi_status controller (AInt 1) (start (router_broken "GetInfo")) =
       (Ok {[ "enabled" :=
                Atom (dict_get {[ "error" := AStr "UPnPError: GetInfo" ]} "NewStatus") ]},
        w') /\
     router w' = router_broken "GetInfo" /\
     trace w' = trace (start (router_broken "GetInfo"))
                ++ [EvCall SERVICE "GetInfo" ∅;
                    EvCall SERVICE "SetEnable" {[ "NewEnable" := AInt 1 ]};
                    EvSleep 5;
                    EvCall SERVICE "GetInfo" ∅]).
Proof.
  destruct (set_guestwifi_status_read_failure controller box
              (start (router_broken "GetInfo")) "UPnPError: GetInfo"
              (router_broken "GetInfo")) as [Hoff Hon].
  - reflexivity.
  - vm_compute. reflexivity.
  - split.
    + apply Hoff. reflexivity.
    + apply (Hon (AInt 1) (Ok ∅) (router_broken "GetInfo") ∅
               (Raise (upnp_error "GetInfo")) (router_broken "GetInfo")
               {[ "error" := AStr "UPnPError: GetInfo" ]});
        vm_compute; reflexivity.
Defined.

Lemma closed_controller_raises_witness :
  close controller (start router_up) = (Ok {| fritzbox := None |}, start router_up) /\
  get_guestwifi_status {| fritzbox := None |} (start router_up) =
    (Raise (AttributeError "fritzbox"), start router_up).
Proof.
  split; [reflexivity |].
  apply (closed_controller_raises controller (start router_up)
           {| fritzbox := None |} (start router_up)).
  reflexivity.
Defined.

Lemma startup_requires_settings_witness :
  exists w',
    process [GetGuestwifi; GetGuestwifiEnable] start_without_password =
      (Raise AssertionError, w') /\
    router w' = router start_without_password /\
    trace w' = trace start_without_password.
Proof.
  apply (startup_requires_settings [GetGuestwifi; GetGuestwifiEnable]
           start_without_password "FRITZBOX_PASS").
  - unfold required_settings. set_solver.
  - left. vm_compute. reflexivity.
Defined.

End SimRuns.

(** ** What the statements do to the outside *)

Section Effects.

Context {R : Type} `{Runtime R}.

Implicit Types (self : FritzBoxGuestWiFiControl) (c : FritzConnection) (w : world R).
Implicit Types (env : gmap string string) (script : list event).

Lemma exactly_at_most {A} env script (m : M R A) :
  exactly env script m -> at_most env script m.
Proof.
  intros Hm w Hw. destruct (Hm w Hw) as [He Ht]. split; [exact He |].
  destruct ((m w).1); [| exact Ht].
  exists script. split; [exact Ht | reflexivity].
Qed.

Lemma at_most_weaken {A} env script more (m : M R A) :
  at_most env script m -> at_most env (script ++ more) m.
Proof.
  intros Hm w Hw. destruct (Hm w Hw) as (He & evs & Ht & Hp).
  split; [exact He |]. exists evs. split; [exact Ht | by apply prefix_app_r].
Qed.

Lemma exactly_ret {A} env (a : A) : exactly env [] (ret (R:=R) a).
Proof. intros w Hw. cbn. by rewrite app_nil_r. Qed.

Lemma exactly_raise {A} env (e : exn) : exactly env [] (raise (R:=R) (A:=A) e).
Proof. intros w Hw. cbn. split; [done |]. exists []. by rewrite app_nil_r. Qed.

Lemma exactly_bind {A B} env s1 s2 (m : M R A) (k : A -> M R B) :
  exactly env s1 m -> (forall a, exactly env s2 (k a)) ->
  exactly env (s1 ++ s2) (bind m k).
Proof.
  intros Hm Hk w Hw. unfold bind. destruct (Hm w Hw) as [He Ht].
  destruct (m w) as [[a | e] w1]; cbn in *.
  - destruct (Hk a w1 He) as [He2 Ht2].
    split; [exact He2 |].
    destruct ((k a w1).1).
    + by rewrite Ht2, Ht, app_assoc.
    + destruct Ht2 as (evs & Ht2 & Hp). exists (s1 ++ evs).
      split; [by rewrite Ht2, Ht, app_assoc | by apply prefix_app].
  - split; [exact He |]. destruct Ht as (evs & Ht & Hp).
    exists evs. split; [exact Ht | by apply prefix_app_r].
Qed.

Lemma at_most_bind {A B} env s1 s2 (m : M R A) (k : A -> M R B) :
  exactly env s1 m -> (forall a, at_most env s2 (k a)) ->
  at_most env (s1 ++ s2) (bind m k).
Proof.
  intros Hm Hk w Hw. unfold bind. destruct (Hm w Hw) as [He Ht].
  destruct (m w) as [[a | e] w1]; cbn in *.
  - destruct (Hk a w1 He) as (He2 & evs & Ht2 & Hp).
    split; [exact He2 |]. exists (s1 ++ evs).
    split; [by rewrite Ht2, Ht, app_assoc | by apply prefix_app].
  - split; [exact He |]. destruct Ht as (evs & Ht & Hp).
    exists evs. split; [exact Ht | by apply prefix_app_r].
Qed.

(** Statements that add nothing to the trace may follow a bounded one. *)
Lemma at_most_then {A B} env script (m : M R A) (k : A -> M R B) :
  at_most env script m -> (forall a, exactly env [] (k a)) ->
  at_most env script (bind m k).
Proof.
  intros Hm Hk w Hw. unfold bind. destruct (Hm w Hw) as (He & evs & Ht & Hp).
  destruct (m w) as [[a | e] w1]; cbn in *.
  - destruct (Hk a w1 He) as [He2 Ht2].
    split; [exact He2 |]. exists evs. split; [| exact Hp].
    destruct ((k a w1).1).
    + by rewrite Ht2, app_nil_r.
    + destruct Ht2 as (evs2 & Ht2 & Hp2).
      apply prefix_nil_inv in Hp2 as ->. by rewrite Ht2, app_nil_r.
  - split; [exact He |]. by exists evs.
Qed.

Lemma exactly_logging env lvl msg args : exactly env [] (logging (R:=R) lvl msg args).
Proof. intros w Hw. cbn. by rewrite app_nil_r. Qed.

Lemma exactly_sleep env secs : exactly env [EvSleep secs] (sleep secs).
Proof. intros w Hw. cbn. done. Qed.

Lemma exactly_getenv_default env key dflt :
  exactly env [] (getenv_default (R:=R) key dflt).
Proof. intros w Hw. cbn. by rewrite app_nil_r. Qed.

Lemma exactly_close env self : exactly env [] (close (R:=R) self).
Proof.
  unfold close. destruct (fritzbox self); [apply exactly_ret | apply exactly_raise].
Qed.

Lemma exactly_guestwifi_action env self name arguments :
  exactly env [EvCall SERVICE name (default ∅ arguments)]
          (__guestwifi_action self name arguments).
Proof.
  intros w Hw. destruct (fritzbox self) as [c |] eqn:Hc.
  - destruct (fc_call_action c SERVICE name (default ∅ arguments) (router w))
      as [o r] eqn:Hcall.
    rewrite (guestwifi_action_run self c name arguments w o r Hc Hcall). cbn.
    split; [exact Hw |].
    destruct (action_result o); [reflexivity |].
    eexists. split; reflexivity.
  - rewrite (guestwifi_action_closed self name arguments w Hc). cbn.
    split; [exact Hw |]. exists []. split; [by rewrite app_nil_r | apply prefix_nil].
Qed.

Lemma exactly_get_status env self :
  exactly env status_script (__get_guestwifi_status self).
Proof.
  unfold __get_guestwifi_status.
  change status_script with ([EvCall SERVICE "GetInfo" (default ∅ None)] ++ []).
  apply exactly_bind; [apply exactly_guestwifi_action |].
  intros d. apply exactly_ret.
Qed.

Lemma exactly_get_guestwifi_status env self :
  exactly env status_script (get_guestwifi_status self).
Proof.
  unfold get_guestwifi_status.
  change status_script with (status_script ++ []).
  apply exactly_bind; [apply exactly_get_status |].
  intros a. apply exactly_ret.
Qed.

Lemma exactly_self_fritzbox env self : exactly env [] (self_fritzbox (R:=R) self).
Proof.
  unfold self_fritzbox. destruct (fritzbox self); [apply exactly_ret | apply exactly_raise].
Qed.

Lemma exactly_get_info env self : exactly env info_script (get_info self).
Proof.
  unfold get_info.
  change info_script
    with ([] ++ [] ++ status_script
          ++ [EvCall SERVICE "GetSSID" (default ∅ None)]
          ++ [EvCall SERVICE "GetStatistics" (default ∅ None)] ++ []).
  apply exactly_bind; [apply exactly_self_fritzbox | intros fb1].
  apply exactly_bind; [apply exactly_self_fritzbox | intros fb2].
  apply exactly_bind; [apply exactly_get_status | intros enabled].
  apply exactly_bind; [apply exactly_guestwifi_action | intros ssid_d].
  apply exactly_bind; [apply exactly_guestwifi_action | intros stats].
  apply exactly_ret.
Qed.

Lemma exactly_set_new_status env self enable :
  exactly env (tail (set_script enable)) (set_new_status self enable).
Proof.
  unfold set_new_status.
  change (tail (set_script enable))
    with ([EvCall SERVICE "SetEnable" (default ∅ (Some {[ "NewEnable" := enable ]}))]
          ++ [] ++ [EvSleep 5] ++ status_script).
  apply exactly_bind;
    [apply (exactly_guestwifi_action env self "SetEnable"
              (Some {[ "NewEnable" := enable ]})) | intros _].
  apply exactly_bind; [apply exactly_logging | intros _].
  apply exactly_bind; [apply exactly_sleep | intros _].
  apply exactly_get_guestwifi_status.
Qed.

Lemma at_most_set_guestwifi_status env self enable :
  at_most env (set_script enable) (set_guestwifi_status self enable).
Proof.
  unfold set_guestwifi_status.
  change (set_script enable) with (status_script ++ [] ++ tail (set_script enable)).
  apply at_most_bind; [apply exactly_get_status | intros status].
  apply at_most_bind; [apply exactly_logging | intros _].
  assert (Hgo := exactly_at_most _ _ _ (exactly_set_new_status env self enable)).
  destruct (truthy enable), (atom_eq status (AStr FRITZBOX_GUESTWIFI_ENABLED));
    cbn [negb]; try exact Hgo;
    apply (at_most_weaken env [] (tail (set_script enable))), exactly_at_most;
    change (@nil event) with (@nil event ++ []);
    (apply exactly_bind; [apply exactly_logging | intros _; apply exactly_ret]).
Qed.

Ltac quiet :=
  repeat first
    [ apply exactly_ret | apply exactly_close | apply exactly_logging
    | apply exactly_getenv_default
    | (change (@nil event) with (@nil event ++ []); apply exactly_bind; [| intros ?]) ].

Lemma setup_run w out r :
  fc_open (env_value (environ w) "FRITZBOX_ADDRESS")
          (env_value (environ w) "FRITZBOX_USER")
          (env_value (environ w) "FRITZBOX_PASS") (router w) = (out, r) ->
  setup_fritzbox_connection w =
    (match out with Ok fb => Ok (__init__ fb) | Raise e => Raise e end,
     World r (environ w) (trace w ++ [open_event (environ w)]) (log w)).
Proof.
  intros Hopen.
  unfold setup_fritzbox_connection, bind, getenv, open_connection. cbn.
  rewrite Hopen. by destruct out.
Qed.

(** A handler: the connection is opened, then [k] runs on the new
    controller. *)
Lemma after_setup {A} script (k : FritzBoxGuestWiFiControl -> M R A) w :
  (forall self, at_most (environ w) script (k self)) ->
  environ (bind setup_fritzbox_connection k w).2 = environ w /\
  exists evs,
    trace (bind setup_fritzbox_connection k w).2 = trace w ++ open_event (environ w) :: evs /\
    evs `prefix_of` script.
Proof.
  intros Hk. unfold bind.
  destruct (fc_open (env_value (environ w) "FRITZBOX_ADDRESS")
              (env_value (environ w) "FRITZBOX_USER")
              (env_value (environ w) "FRITZBOX_PASS") (router w)) as [out r] eqn:Hopen.
  rewrite (setup_run w out r Hopen). destruct out as [fb | e].
  - destruct (Hk (__init__ fb)
                (World r (environ w) (trace w ++ [open_event (environ w)]) (log w)) eq_refl)
      as (He & evs & Ht & Hp).
    split; [exact He |]. exists evs. split; [| exact Hp].
    rewrite Ht. cbn. by rewrite <- app_assoc.
  - cbn. split; [reflexivity |]. exists []. split; [reflexivity | apply prefix_nil].
Qed.

Lemma try_except_all_world {A} (body : M R A) (f : exn -> A) w :
  (try_except body (fun e => Some (ret (f e))) w).2 = (body w).2.
Proof. unfold try_except. by destruct (body w) as [[a | e] w']. Qed.

(** X1. Whatever the router answers and whether or not the controller is
    still open, one call of [set_guestwifi_status] leaves [os.environ] alone
    and does to the outside a prefix of: read [GetInfo], send [SetEnable]
    with [{"NewEnable": enable}], sleep 5 seconds, read [GetInfo].  So it
    writes at most once and only after a read, with [enable] as given, and
    sleeps only after a write. *)
Theorem set_guestwifi_status_events self enable w :
  environ (set_guestwifi_status self enable w).2 = environ w /\
  exists evs,
    trace (set_guestwifi_status self enable w).2 = trace w ++ evs /\
    evs `prefix_of` [EvCall SERVICE "GetInfo" ∅;
                     EvCall SERVICE "SetEnable" {[ "NewEnable" := enable ]};
                     EvSleep 5;
                     EvCall SERVICE "GetInfo" ∅].
Proof. exact (at_most_set_guestwifi_status (environ w) self enable w eq_refl). Qed.

(** X2. Whatever the router answers, [get_info] leaves [os.environ] alone
    and calls a prefix of [GetInfo], [GetSSID], [GetStatistics], in this
    order: it never writes and never sleeps. *)
Theorem get_info_events self w :
  environ (get_info self w).2 = environ w /\
  exists evs,
    trace (get_info self w).2 = trace w ++ evs /\
    evs `prefix_of` [EvCall SERVICE "GetInfo" ∅;
                     EvCall SERVICE "GetSSID" ∅;
                     EvCall SERVICE "GetStatistics" ∅].
Proof.
  exact (exactly_at_most _ _ _ (exactly_get_info (environ w) self) w eq_refl).
Qed.

Lemma request_events q w :
  environ (serve_request q w).2 = environ w /\
  exists evs,
    trace (serve_request q w).2 = trace w ++ open_event (environ w) :: evs /\
    evs `prefix_of` request_script q.
Proof.
  unfold serve_request. rewrite try_except_all_world.
  destruct q as [request | | |]; cbn [request_script].
  - apply after_setup. intros self.
    apply at_most_then; [apply exactly_at_most, exactly_get_guestwifi_status |].
    intros status. quiet.
  - apply after_setup. intros self.
    apply at_most_then; [apply exactly_at_most, exactly_get_info |].
    intros res. quiet.
  - apply after_setup. intros self.
    apply at_most_then; [apply at_most_set_guestwifi_status |].
    intros res. quiet.
  - apply after_setup. intros self.
    apply at_most_then; [apply at_most_set_guestwifi_status |].
    intros res. quiet.
Qed.

(** X3. Every request opens one connection, with the address, user and
    password of the environment, before anything else, and then makes a
    prefix of the calls of its controller method: the page a [GetInfo], the
    JSON route the three reads, the enable and disable routes the
    read-write-sleep-read sequence with [NewEnable] 1 and 0.  The
    environment is left as it is. *)
Theorem serve_request_events q w :
  environ (serve_request q w).2 = environ w /\
  exists evs,
    trace (serve_request q w).2 = trace w ++ open_event (environ w) :: evs /\
    evs `prefix_of` request_script q.
Proof. exact (request_events q w). Qed.

End Effects.

(** ** Exceptions the controller does not catch *)

Section Uncaught.

Context {R : Type} `{Runtime R}.

Implicit Types (self : FritzBoxGuestWiFiControl) (c : FritzConnection) (w : world R).

Lemma action_result_foreign e :
  foreign e -> action_result (Raise e) = Raise e /\ action_log (Raise e) = [].
Proof. intros He. destruct e; try done. by destruct (He msg). Qed.

(** X4. An exception outside the FritzConnectionException hierarchy is not
    recovered: when [GetSSID] raises one after a [GetInfo] that returned (or
    failed with a FritzConnectionException), [get_info] raises that same
    exception; [GetStatistics] is never called and the exception is not
    logged. *)
Theorem get_info_uncaught_exception self c w o1 r1 d1 e r2 :
  fritzbox self = Some c ->
  fc_call_action c SERVICE "GetInfo" ∅ (router w) = (o1, r1) ->
  action_result o1 = Ok d1 ->
  fc_call_action c SERVICE "GetSSID" ∅ r1 = (Raise e, r2) ->
  foreign e ->
  get_info self w =
    (Raise e,
     World r2 (environ w)
           (trace w ++ [EvCall SERVICE "GetInfo" ∅; EvCall SERVICE "GetSSID" ∅])
           (log w ++ action_log o1)).
Proof.
  intros Hc H1 Hd1 H2 He. destruct (action_result_foreign e He) as [Hres Hlog].
  unfold get_info, bind, self_fritzbox. rewrite Hc. cbn.
  rewrite (get_status_run self c w o1 r1 Hc H1), Hd1.
  erewrite (guestwifi_action_run self c "GetSSID" None) by (cbn; eauto).
  rewrite Hres, Hlog. cbn. by rewrite app_nil_r, <- app_assoc.
Qed.

(** X5. When the short-circuit does not apply and [SetEnable] raises an
    exception outside the FritzConnectionException hierarchy,
    [set_guestwifi_status] raises that same exception straight away: it does
    not sleep and does not read the status again. *)
Theorem set_guestwifi_status_uncaught_exception self c enable w o1 r1 d1 e r2 :
  fritzbox self = Some c ->
  fc_call_action c SERVICE "GetInfo" ∅ (router w) = (o1, r1) ->
  action_result o1 = Ok d1 ->
  (truthy enable = true /\ dict_get d1 "NewStatus" <> AStr "Up") \/
  (truthy enable = false /\ dict_get d1 "NewStatus" = AStr "Up") ->
  fc_call_action c SERVICE "SetEnable" {[ "NewEnable" := enable ]} r1 = (Raise e, r2) ->
  foreign e ->
  exists w',
    set_guestwifi_status self enable w = (Raise e, w') /\
    router w' = r2 /\
    trace w' = trace w ++ [EvCall SERVICE "GetInfo" ∅;
                           EvCall SERVICE "SetEnable" {[ "NewEnable" := enable ]}].
Proof.
  intros Hc H1 Hd1 Hcase H2 He. destruct (action_result_foreign e He) as [Hres Hlog].
  rewrite (set_guestwifi_status_run self c enable w o1 r1 d1 Hc H1 Hd1).
  assert (Hgo : forall w1, router w1 = r1 ->
            exists w', set_new_status self enable w1 = (Raise e, w') /\
                       router w' = r2 /\
                       trace w' = trace w1
                                  ++ [EvCall SERVICE "SetEnable" {[ "NewEnable" := enable ]}]).
  { intros w1 Hw1. rewrite <- Hw1 in H2. unfold set_new_status, bind.
    rewrite (guestwifi_action_run self c "SetEnable" (Some {[ "NewEnable" := enable ]})
               w1 (Raise e) r2 Hc H2).
    rewrite Hres. eauto. }
  destruct Hcase as [[Hen Hst] | [Hen Hst]]; rewrite Hen.
  - apply atom_eq_str_false in Hst. rewrite Hst.
    edestruct Hgo as (w' & -> & Hr & Ht); [reflexivity |].
    exists w'. split; [reflexivity |]. split; [exact Hr |].
    rewrite Ht. cbn. by rewrite <- app_assoc.
  - apply atom_eq_str in Hst. rewrite Hst.
    edestruct Hgo as (w' & -> & Hr & Ht); [reflexivity |].
    exists w'. split; [reflexivity |]. split; [exact Hr |].
    rewrite Ht. cbn. by rewrite <- app_assoc.
Qed.

End Uncaught.

(** ** The start-up probe and the handlers *)

Section Server.

Context {R : Type} `{Runtime R}.

Implicit Types (self : FritzBoxGuestWiFiControl) (c : FritzConnection) (w : world R).

(** The three asserts pass: the probe decides. *)
Lemma module_startup_probe w out r :
  (forall key, key ∈ required_settings ->
     truthy (env_value (load_dotenv (environ w)) key) = true) ->
  fc_open (env_value (load_dotenv (environ w)) "FRITZBOX_ADDRESS")
          (env_value (load_dotenv (environ w)) "FRITZBOX_USER")
          (env_value (load_dotenv (environ w)) "FRITZBOX_PASS") (router w) = (out, r) ->
  exists w',
    module_startup w =
      (match out with
       | Ok fb => if truthy (system_version fb) then Ok tt else Raise AssertionError
       | Raise e => Raise e
       end, w') /\
    router w' = r /\
    environ w' = load_dotenv (environ w) /\
    trace w' = trace w ++ [open_event (load_dotenv (environ w))].
Proof.
  intros Hset Hopen.
  assert (Ha : truthy (env_value (load_dotenv (environ w)) "FRITZBOX_ADDRESS") = true)
    by (apply Hset; unfold required_settings; set_solver).
  assert (Hu : truthy (env_value (load_dotenv (environ w)) "FRITZBOX_USER") = true)
    by (apply Hset; unfold required_settings; set_solver).
  assert (Hp : truthy (env_value (load_dotenv (environ w)) "FRITZBOX_PASS") = true)
    by (apply Hset; unfold required_settings; set_solver).
  unfold module_startup, bind, do_load_dotenv, getenv, py_assert, open_connection. cbn.
  rewrite Ha. cbn. rewrite Hu. cbn. rewrite Hp. cbn. rewrite Hopen.
  destruct out as [fb | e]; cbn; [| by eauto].
  destruct (truthy (system_version fb)); cbn; eauto.
Qed.

(** One assert fails: nothing else happens. *)
Lemma module_startup_assert w key :
  key ∈ required_settings ->
  truthy (env_value (load_dotenv (environ w)) key) = false ->
  (module_startup w).1 = Raise AssertionError.
Proof.
  intros Hkey Hfalse.
  unfold module_startup, bind, do_load_dotenv, getenv, py_assert. cbn.
  unfold required_settings in Hkey.
  repeat (apply elem_of_cons in Hkey as [-> | Hkey]); [.. | by apply elem_of_nil in Hkey].
  - by rewrite Hfalse.
  - destruct (truthy (env_value _ "FRITZBOX_ADDRESS")); cbn; [| done].
    by rewrite Hfalse.
  - destruct (truthy (env_value _ "FRITZBOX_ADDRESS")); cbn; [| done].
    destruct (truthy (env_value _ "FRITZBOX_USER")); cbn; [| done].
    by rewrite Hfalse.
Qed.

(** X6. The start-up checks of lines 32-35 and 121-132 all pass exactly
    when, after [load_dotenv], the three settings are non-empty and the
    probe connection made with them opens and reports a non-empty firmware
    version.  (These conditions are thus necessary for the import to
    complete; the lines after the checks are outside this statement.) *)
Theorem startup_checks_pass_iff w :
  (exists w', module_startup w = (Ok tt, w')) <->
  (forall key, key ∈ required_settings ->
     truthy (env_value (load_dotenv (environ w)) key) = true) /\
  (exists fb r,
     fc_open (env_value (load_dotenv (environ w)) "FRITZBOX_ADDRESS")
             (env_value (load_dotenv (environ w)) "FRITZBOX_USER")
             (env_value (load_dotenv (environ w)) "FRITZBOX_PASS") (router w) = (Ok fb, r) /\
     truthy (system_version fb) = true).
Proof.
  split.
  - intros [w' Hrun].
    assert (Hset : forall key, key ∈ required_settings ->
                     truthy (env_value (load_dotenv (environ w)) key) = true).
    { intros key Hkey.
      destruct (truthy (env_value (load_dotenv (environ w)) key)) eqn:Hk; [done |].
      pose proof (module_startup_assert w key Hkey Hk) as Hfail.
      rewrite Hrun in Hfail. discriminate. }
    split; [exact Hset |].
    destruct (fc_open (env_value (load_dotenv (environ w)) "FRITZBOX_ADDRESS")
                (env_value (load_dotenv (environ w)) "FRITZBOX_USER")
                (env_value (load_dotenv (environ w)) "FRITZBOX_PASS") (router w))
      as [out r] eqn:Hopen.
    destruct (module_startup_probe w out r Hset Hopen) as (w1 & Hrun1 & _).
    rewrite Hrun in Hrun1. destruct out as [fb | e]; [| discriminate].
    exists fb, r. split; [reflexivity |].
    destruct (truthy (system_version fb)); [done | discriminate].
  - intros (Hset & fb & r & Hopen & Hver).
    destruct (module_startup_probe w (Ok fb) r Hset Hopen) as (w1 & Hrun1 & _).
    rewrite Hver in Hrun1. eauto.
Qed.

(** X7. When the settings are present but the probe connection cannot be
    opened, the import raises the exception of the connection attempt,
    whatever its class; the process ends there, having served no request and
    called no router action. *)
Theorem startup_probe_failure (qs : list request) w e r :
  (forall key, key ∈ required_settings ->
     truthy (env_value (load_dotenv (environ w)) key) = true) ->
  fc_open (env_value (load_dotenv (environ w)) "FRITZBOX_ADDRESS")
          (env_value (load_dotenv (environ w)) "FRITZBOX_USER")
          (env_value (load_dotenv (environ w)) "FRITZBOX_PASS") (router w) = (Raise e, r) ->
  exists w',
    process qs w = (Raise e, w') /\
    router w' = r /\
    trace w' = trace w ++ [open_event (load_dotenv (environ w))].
Proof.
  intros Hset Hopen.
  destruct (module_startup_probe w (Raise e) r Hset Hopen) as (w1 & Hrun & Hr & _ & Ht).
  exists w1. unfold process, bind. by rewrite Hrun.
Qed.

(** X8. When the probe connection opens but reports no firmware version
    ([None] or an empty string), the import raises AssertionError: the
    process ends after this one connection, having served no request. *)
Theorem startup_probe_no_version (qs : list request) w fb r :
  (forall key, key ∈ required_settings ->
     truthy (env_value (load_dotenv (environ w)) key) = true) ->
  fc_open (env_value (load_dotenv (environ w)) "FRITZBOX_ADDRESS")
          (env_value (load_dotenv (environ w)) "FRITZBOX_USER")
          (env_value (load_dotenv (environ w)) "FRITZBOX_PASS") (router w) = (Ok fb, r) ->
  truthy (system_version fb) = false ->
  exists w',
    process qs w = (Raise AssertionError, w') /\
    router w' = r /\
    trace w' = trace w ++ [open_event (load_dotenv (environ w))].
Proof.
  intros Hset Hopen Hver.
  destruct (module_startup_probe w (Ok fb) r Hset Hopen) as (w1 & Hrun & Hr & _ & Ht).
  rewrite Hver in Hrun.
  exists w1. unfold process, bind. by rewrite Hrun.
Qed.

(** X9. When the connection of a request cannot be opened, each of the four
    handlers raises the exception of the connection attempt (a
    FritzConnectionException included: nothing catches it here) and no
    router action is called. *)
Theorem handlers_open_failure (request : pyval) w e r :
  fc_open (env_value (environ w) "FRITZBOX_ADDRESS")
          (env_value (environ w) "FRITZBOX_USER")
          (env_value (environ w) "FRITZBOX_PASS") (router w) = (Raise e, r) ->
  let w' := World r (environ w) (trace w ++ [open_event (environ w)]) (log w) in
  root request w = (Raise e, w') /\
  guestwifi w = (Raise e, w') /\
  guestwifi_enable w = (Raise e, w') /\
  guestwifi_disable w = (Raise e, w').
Proof.
  intros Hopen w'.
  unfold root, guestwifi, guestwifi_enable, guestwifi_disable, bind.
  by rewrite (setup_run w (Raise e) r Hopen).
Qed.

(** X10. The page: when the connection opens and the [GetInfo] read returns
    or fails with a FritzConnectionException, [root] answers the template
    "index.html" and never raises; its [guestwifi_enabled] flag is true
    exactly when the status read is "Up" (so a failed read shows the guest
    WiFi as off), [header_message] is HEADER_MESSAGE or the empty string, and
    the router has been asked for [GetInfo] only. *)
Theorem root_page (request : pyval) w fb r0 o r1 d :
  fc_open (env_value (environ w) "FRITZBOX_ADDRESS")
          (env_value (environ w) "FRITZBOX_USER")
          (env_value (environ w) "FRITZBOX_PASS") (router w) = (Ok fb, r0) ->
  fc_call_action fb SERVICE "GetInfo" ∅ r0 = (o, r1) ->
  action_result o = Ok d ->
  exists context w',
    root request w = (Ok (TemplateResponse "index.html" context), w') /\
    context !! "request" = Some request /\
    context !! "guestwifi_enabled" =
      Some (Atom (ABool (atom_eq (dict_get d "NewStatus") (AStr "Up")))) /\
    (atom_eq (dict_get d "NewStatus") (AStr "Up") = true <->
     dict_get d "NewStatus" = AStr "Up") /\
    context !! "header_message" =
      Some (Atom (AStr (default "" (environ w !! "HEADER_MESSAGE")))) /\
    router w' = r1 /\
    trace w' = trace w ++ [open_event (environ w); EvCall SERVICE "GetInfo" ∅].
Proof.
  intros Hopen Hcall Hd.
  unfold root, bind. rewrite (setup_run w (Ok fb) r0 Hopen).
  erewrite (get_guestwifi_status_run (__init__ fb) fb) by (cbn; eauto).
  rewrite Hd. cbn.
  eexists _, _. split; [reflexivity |].
  split; [by simplify_map_eq |].
  split; [unfold py_get; by simplify_map_eq |].
  split; [apply atom_eq_str |].
  split; [by simplify_map_eq |].
  split; [reflexivity |]. by rewrite <- app_assoc.
Qed.

(** X11. The enable and disable routes: once the connection is open, and
    whatever [set_guestwifi_status] returned (changed, unchanged or an
    unknown status), the handler answers a redirect to BASE_URL, or to "/"
    when BASE_URL is not set; it passes 1 to enable and 0 to disable and
    does nothing to the router beyond that call. *)
Theorem toggle_redirects w fb r0 :
  fc_open (env_value (environ w) "FRITZBOX_ADDRESS")
          (env_value (environ w) "FRITZBOX_USER")
          (env_value (environ w) "FRITZBOX_PASS") (router w) = (Ok fb, r0) ->
  let w1 := World r0 (environ w) (trace w ++ [open_event (environ w)]) (log w) in
  let url := AStr (default "/" (environ w !! "BASE_URL")) in
  (forall res w2,
     set_guestwifi_status (__init__ fb) (AInt 1) w1 = (Ok res, w2) ->
     guestwifi_enable w = (Ok (RedirectResponse url), w2)) /\
  (forall res w2,
     set_guestwifi_status (__init__ fb) (AInt 0) w1 = (Ok res, w2) ->
     guestwifi_disable w = (Ok (RedirectResponse url), w2)).
Proof.
  intros Hopen w1 url.
  assert (Henv : forall enable res w2,
            set_guestwifi_status (__init__ fb) enable w1 = (Ok res, w2) ->
            environ w2 = environ w).
  { intros enable res w2 Hrun.
    destruct (at_most_set_guestwifi_status (environ w) (__init__ fb) enable w1 eq_refl)
      as [He _].
    by rewrite Hrun in He. }
  split; intros res w2 Hrun.
  - unfold guestwifi_enable, bind. rewrite (setup_run w (Ok fb) r0 Hopen).
    fold w1. rewrite Hrun. cbn. unfold url. by rewrite (Henv _ _ _ Hrun).
  - unfold guestwifi_disable, bind. rewrite (setup_run w (Ok fb) r0 Hopen).
    fold w1. rewrite Hrun. cbn. unfold url. by rewrite (Henv _ _ _ Hrun).
Qed.

(** X12. The JSON route: when the connection opens and each of the three
    actions returns or fails with a FritzConnectionException, [guestwifi]
    answers JSON and never raises; the document holds the version and model
    of the connection, the status and SSID read, and under [stats] the whole
    statistics dict or the error dict of a failed [GetStatistics]. *)
Theorem guestwifi_json w fb r0 o1 r1 d1 o2 r2 d2 o3 r3 d3 :
  fc_open (env_value (environ w) "FRITZBOX_ADDRESS")
          (env_value (environ w) "FRITZBOX_USER")
          (env_value (environ w) "FRITZBOX_PASS") (router w) = (Ok fb, r0) ->
  fc_call_action fb SERVICE "GetInfo" ∅ r0 = (o1, r1) ->
  fc_call_action fb SERVICE "GetSSID" ∅ r1 = (o2, r2) ->
  fc_call_action fb SERVICE "GetStatistics" ∅ r2 = (o3, r3) ->
  action_result o1 = Ok d1 ->
  action_result o2 = Ok d2 ->
  action_result o3 = Ok d3 ->
  exists v w',
    guestwifi w = (Ok (JSONResponse v), w') /\
    router w' = r3 /\
    py_path v version_field = Some (Atom (system_version fb)) /\
    py_path v model_field = Some (Atom (modelname fb)) /\
    py_path v enabled_field = Some (Atom (dict_get d1 "NewStatus")) /\
    py_path v ssid_field = Some (Atom (dict_get d2 "NewSSID")) /\
    py_path v stats_field = Some (of_flat d3).
Proof.
  intros Hopen H1 H2 H3 Hd1 Hd2 Hd3.
  unfold guestwifi, bind. rewrite (setup_run w (Ok fb) r0 Hopen).
  set (w1 := World r0 (environ w) (trace w ++ [open_event (environ w)]) (log w)).
  destruct (get_info_run (__init__ fb) fb w1 o1 r1 d1 o2 r2 d2 o3 r3 d3
              eq_refl H1 H2 H3 Hd1 Hd2 Hd3) as (v & w' & Hrun & Hr & _ & Hfields).
  rewrite Hrun. cbn. exists v, w'. split; [reflexivity |]. split; assumption.
Qed.

Lemma opens_app (l k : list event) : opens (l ++ k) = opens l ++ opens k.
Proof.
  induction l as [| [a u p | s a args | n] l IH]; cbn; [done | | done | done].
  by rewrite IH.
Qed.

Lemma opens_request_script q evs : evs `prefix_of` request_script q -> opens evs = [].
Proof.
  intros [k Hk]. apply (f_equal opens) in Hk. rewrite opens_app in Hk.
  assert (Hnone : opens (request_script q) = []) by by destruct q.
  rewrite Hnone in Hk. symmetry in Hk. by apply app_eq_nil in Hk as [-> _].
Qed.

Lemma serve_request_ok q w : exists r, (serve_request q w).1 = Ok r.
Proof.
  unfold serve_request, try_except.
  destruct (match q with
            | GetRoot request => root request
            | GetGuestwifi => guestwifi
            | GetGuestwifiEnable => guestwifi_enable
            | GetGuestwifiDisable => guestwifi_disable
            end w) as [[r | e] w']; cbn; eauto.
Qed.

(** X13. No connection is reused: serving a list of requests leaves the
    environment as it is and opens exactly one connection per request, each
    with the address, user and password of that environment. *)
Theorem serve_opens (qs : list request) w :
  environ (serve qs w).2 = environ w /\
  opens (trace (serve qs w).2) =
    opens (trace w) ++ replicate (length qs) (open_event (environ w)).
Proof.
  revert w. induction qs as [| q qs IH]; intros w; cbn.
  - by rewrite app_nil_r.
  - unfold bind.
    destruct (request_events q w) as (He & evs & Ht & Hp).
    destruct (serve_request_ok q w) as [r Hr].
    destruct (serve_request q w) as [res w1]. cbn in *. subst res.
    destruct (IH w1) as [He2 Ho].
    assert (Hw1 : opens (trace w1) = opens (trace w) ++ [open_event (environ w)]).
    { rewrite Ht, opens_app. cbn. by rewrite (opens_request_script q evs Hp). }
    destruct (serve qs w1) as [[rs | e] w2]; cbn in *.
    + split; [congruence |].
      by rewrite Ho, Hw1, He, <- app_assoc.
    + split; [congruence |].
      by rewrite Ho, Hw1, He, <- app_assoc.
Qed.

End Server.

(** ** Runs on the unreliable network and on the simulated router *)

Section MoreRuns.

Import Sim Flaky.

Lemma get_info_uncaught_exception_witness :
  get_info Sim.controller
    (Flaky.start (Flaky.network 1 (AStr "7.29") Sim.router_up)) =
  (Raise Flaky.connection_error,
   World (Flaky.network 0 (AStr "7.29") Sim.router_up) Sim.credentials
         ([] ++ [EvCall SERVICE "GetInfo" ∅; EvCall SERVICE "GetSSID" ∅])
         ([] ++ action_log (Ok (Sim.info true true)))).
Proof.
  apply (get_info_uncaught_exception Sim.controller Sim.box
           (Flaky.start (Flaky.network 1 (AStr "7.29") Sim.router_up))
           (Ok (Sim.info true true)) (Flaky.network 0 (AStr "7.29") Sim.router_up)
           (Sim.info true true)).
  - reflexivity.
  - vm_compute. reflexivity.
  - reflexivity.
  - vm_compute. reflexivity.
  - intros msg. discriminate.
Defined.

Lemma set_guestwifi_status_uncaught_exception_witness :
  exists w',
    set_guestwifi_status Sim.controller (AInt 1)
      (Flaky.start (Flaky.network 1 (AStr "7.29") Sim.router_down)) =
      (Raise Flaky.connection_error, w') /\
    router w' = Flaky.network 0 (AStr "7.29") Sim.router_down /\
    trace w' = [] ++ [EvCall SERVICE "GetInfo" ∅;
                      EvCall SERVICE "SetEnable" {[ "NewEnable" := AInt 1 ]}].
Proof.
  apply (set_guestwifi_status_uncaught_exception Sim.controller Sim.box (AInt 1)
           (Flaky.start (Flaky.network 1 (AStr "7.29") Sim.router_down))
           (Ok (Sim.info false false)) (Flaky.network 0 (AStr "7.29") Sim.router_down)
           (Sim.info false false)).
  - reflexivity.
  - vm_compute. reflexivity.
  - reflexivity.
  - left. split; [reflexivity | vm_compute; discriminate].
  - vm_compute. reflexivity.
  - intros msg. discriminate.
Defined.

Lemma flaky_settings (st : Flaky.state) (key : string) :
  key ∈ required_settings ->
  truthy (env_value (load_dotenv (environ (Flaky.start st))) key) = true.
Proof.
  unfold required_settings. intros Hkey.
  repeat (apply elem_of_cons in Hkey as [-> | Hkey]); [.. | by apply elem_of_nil in Hkey];
    vm_compute; reflexivity.
Defined.

Lemma startup_probe_failure_witness :
  exists w',
    process [GetGuestwifi]
      (Flaky.start (Flaky.network 0 (AStr "7.29") Sim.router_up)) =
      (Raise Flaky.connection_error, w') /\
    router w' = Flaky.network 0 (AStr "7.29") Sim.router_up /\
    trace w' = [] ++ [open_event Sim.credentials].
Proof.
  refine (startup_probe_failure [GetGuestwifi]
            (Flaky.start (Flaky.network 0 (AStr "7.29") Sim.router_up))
            Flaky.connection_error (Flaky.network 0 (AStr "7.29") Sim.router_up) _ _).
  - apply flaky_settings.
  - vm_compute. reflexivity.
Defined.

Lemma startup_probe_no_version_witness :
  exists w',
    process [GetGuestwifi]
      (Flaky.start (Flaky.network 9 (AStr "") Sim.router_up)) =
      (Raise AssertionError, w') /\
    router w' = Flaky.network 8 (AStr "") Sim.router_up /\
    trace w' = [] ++ [open_event Sim.credentials].
Proof.
  refine (startup_probe_no_version [GetGuestwifi]
            (Flaky.start (Flaky.network 9 (AStr "") Sim.router_up))
            {| system_version := AStr ""; modelname := AStr "FRITZ!Box 7590" |}
            (Flaky.network 8 (AStr "") Sim.router_up) _ _ _).
  - apply flaky_settings.
  - vm_compute. reflexivity.
  - reflexivity.
Defined.

Lemma handlers_open_failure_witness :
  guestwifi_enable Sim.start_without_password =
    (Raise (FritzConnectionException "authorization failed"),
     World Sim.router_down (environ Sim.start_without_password)
           ([] ++ [open_event (environ Sim.start_without_password)]) []).
Proof.
  refine (proj1 (proj2 (proj2 (handlers_open_failure (Atom ANone)
            Sim.start_without_password
            (FritzConnectionException "authorization failed") Sim.router_down _)))).
  vm_compute. reflexivity.
Defined.

Lemma root_page_witness :
  exists context w',
    root (Atom ANone) (Sim.start (Sim.router_broken "GetInfo")) =
      (Ok (TemplateResponse "index.html" context), w') /\
    context !! "guestwifi_enabled" = Some (Atom (ABool false)) /\
    context !! "header_message" = Some (Atom (AStr "")).
Proof.
  destruct (root_page (Atom ANone) (Sim.start (Sim.router_broken "GetInfo"))
              Sim.box (Sim.router_broken "GetInfo")
              (Raise (Sim.upnp_error "GetInfo")) (Sim.router_broken "GetInfo")
              {[ "error" := AStr "UPnPError: GetInfo" ]})
    as (context & w' & Hrun & _ & Hflag & _ & Hmsg & _).
  - vm_compute. reflexivity.
  - vm_compute. reflexivity.
  - reflexivity.
  - exists context, w'. split; [exact Hrun |]. split; [exact Hflag | exact Hmsg].
Defined.

Lemma toggle_redirects_witness :
  (guestwifi_enable (Sim.start Sim.router_down)).1 = Ok (RedirectResponse (AStr "/")) /\
  (guestwifi_disable (Sim.start Sim.router_up)).1 = Ok (RedirectResponse (AStr "/")).
Proof.
  split.
  - destruct (toggle_redirects (Sim.start Sim.router_down) Sim.box Sim.router_down)
      as [Hon _]; [vm_compute; reflexivity |].
    erewrite Hon; [reflexivity | vm_compute; reflexivity].
  - destruct (toggle_redirects (Sim.start Sim.router_up) Sim.box Sim.router_up)
      as [_ Hoff]; [vm_compute; reflexivity |].
    erewrite Hoff; [reflexivity | vm_compute; reflexivity].
Defined.

Lemma guestwifi_json_witness :
  exists v w',
    guestwifi (Sim.start (Sim.router_broken "GetStatistics")) = (Ok (JSONResponse v), w') /\
    py_path v enabled_field = Some (Atom (AStr "Up")) /\
    py_path v stats_field =
      Some (of_flat {[ "error" := AStr "UPnPError: GetStatistics" ]}).
Proof.
  destruct (guestwifi_json (Sim.start (Sim.router_broken "GetStatistics")) Sim.box
              (Sim.router_broken "GetStatistics")
              (Ok (Sim.info true true)) (Sim.router_broken "GetStatistics")
              (Sim.info true true)
              (Ok Sim.ssid) (Sim.router_broken "GetStatistics") Sim.ssid
              (Raise (Sim.upnp_error "GetStatistics")) (Sim.router_broken "GetStatistics")
              {[ "error" := AStr "UPnPError: GetStatistics" ]})
    as (v & w' & Hrun & _ & _ & _ & Hen & _ & Hst);
    try (vm_compute; reflexivity).
  exists v, w'. split; [exact Hrun |]. split; [exact Hen | exact Hst].
Defined.

End MoreRuns.
